(** * ModpathBas: the MODPATH basic package writer (flopy/modpath/mpbas.py)

    A shallow embedding of [ModpathBas.__init__] and [ModpathBas.write_file]
    together with the Python pieces they rely on: [str.format] for the
    [d], [s] and [f] presentation types, subscripting of [None], [int],
    [str] and [list] values, and a file store with open handles. *)

From Stdlib Require Import ZArith String Ascii List Lia DecimalString DecimalZ
  DecimalPos.
From stdpp Require Import base option list gmap strings.

Local Open Scope string_scope.
Local Open Scope Z_scope.

(** ** Python values and exceptions *)

(** Exceptions.  The first group is what the interpreter raises on the
    paths of [write_file], [PyException] is the plain [Exception] with
    which the array helper refuses its arguments, and the last three are
    the kinds the specification names.  No statement of the source raises
    any of them explicitly. *)
Inductive pyerror : Type :=
| TypeError (what : string)
| IndexError (what : string)
| UnboundLocalError (var : string)
| ValueError (what : string)
| AttributeError (what : string)
| PyException (what : string)
| ConfigurationError
| MissingDependencyError
| IOError.

Inductive pyresult (A : Type) : Type :=
| Ok (a : A)
| Raise (e : pyerror).
Arguments Ok {A} a.
Arguments Raise {A} e.

Definition is_ok {A} (r : pyresult A) : bool :=
  match r with Ok _ => true | Raise _ => false end.

(** A Python [float]: a signed dyadic rational [(-1)^neg * m * 2^e], an
    infinity or a NaN.  The sign is kept apart so that [-0.0] exists. *)
Inductive pyfloat : Type :=
| PyFinite (neg : bool) (m : N) (e : Z)
| PyInf (neg : bool)
| PyNaN.

(** [bud_label]: [None], a [str] or a list of [str]. *)
Inductive bud_label_t : Type :=
| BudNone
| BudStr (s : string)
| BudList (l : list string).

(** [def_iface]: [None], an [int] or a list of [int]. *)
Inductive def_iface_t : Type :=
| IfaceNone
| IfaceInt (n : Z)
| IfaceList (l : list Z).

(** [laytyp]: an [int] or a list of [int]. *)
Inductive laytyp_t : Type :=
| LaytypInt (n : Z)
| LaytypList (l : list Z).

(** ** [str.format] *)

Module Fmt.

Definition nl : string := String (ascii_of_nat 10) EmptyString.

Fixpoint spaces (n : nat) : string :=
  match n with
  | O => ""
  | S k => String " " (spaces k)
  end.

Fixpoint zeros (n : nat) : string :=
  match n with
  | O => ""
  | S k => String "0" (zeros k)
  end.

(** Default alignment of numbers: right. *)
Definition rjust (w : nat) (s : string) : string :=
  spaces (w - String.length s) +:+ s.

(** Default alignment of strings: left. *)
Definition ljust (w : nat) (s : string) : string :=
  s +:+ spaces (w - String.length s).

Definition zfill (w : nat) (s : string) : string :=
  zeros (w - String.length s) +:+ s.

(** [str(n)] for an [int]. *)
Definition repr_int (n : Z) : string :=
  NilZero.string_of_int (Z.to_int n).

(** ['{0:<w>d}'.format(n)] *)
Definition format_d (w : nat) (n : Z) : string :=
  rjust w (repr_int n).

(** ['{0:<w>s}'.format(s)]: padded on the right, never truncated. *)
Definition format_s (w : nat) (s : string) : string :=
  ljust w s.

(** Nearest integer to [num / den] ([den > 0]), ties to even. *)
Definition round_half_even (num den : Z) : Z :=
  let q := num / den in
  let r := num mod den in
  match (2 * r) ?= den with
  | Lt => q
  | Gt => q + 1
  | Eq => if Z.even q then q else q + 1
  end.

(** The magnitude [m * 2^e] scaled by [10^prec] and correctly rounded. *)
Definition scaled_magnitude (prec : nat) (m : N) (e : Z) : Z :=
  let p := 10 ^ Z.of_nat prec in
  if 0 <=? e
  then Z.of_N m * 2 ^ e * p
  else round_half_even (Z.of_N m * p) (2 ^ (- e)).

Definition sign_str (neg : bool) : string :=
  if neg then "-" else "".

(** The digits of the [f] presentation type with [prec] decimals. *)
Definition fixed_repr (prec : nat) (x : pyfloat) : string :=
  match x with
  | PyNaN => "nan"
  | PyInf neg => sign_str neg +:+ "inf"
  | PyFinite neg m e =>
      let p := 10 ^ Z.of_nat prec in
      let r := scaled_magnitude prec m e in
      sign_str neg +:+ repr_int (r / p) +:+
      match prec with
      | O => ""
      | S _ => "." +:+ zfill prec (repr_int (r mod p))
      end
  end.

(** ['{0:<w>.<prec>f}'.format(x)] *)
Definition format_f (w prec : nat) (x : pyfloat) : string :=
  rjust w (fixed_repr prec x).

End Fmt.

Definition float_of_int (n : Z) : pyfloat :=
  PyFinite (n <? 0) (Z.abs_N n) 0.

(** The double nearest to [0.30]: [5404319552844595 * 2^-54]. *)
Definition float_0_30 : pyfloat := PyFinite false 5404319552844595 (-54).

(** An element of a numpy array: an integer or a float. *)
Inductive np_scalar : Type :=
| NpInt (z : Z)
| NpFloat (x : pyfloat).

Inductive np_dtype : Type := np_int32 | np_float32.

(** What the constructor accepts for [ibound], [prsity] and [prsityCB]:
    a scalar or an explicit three-dimensional array. *)
Inductive array_input : Type :=
| UniformValue (v : np_scalar)
| ExplicitArray (a : list (list (list np_scalar))).

(** ** Subscripting *)

Definition range (n : Z) : list nat := seq 0 (Z.to_nat n).

(** [self.bud_label[i]] for [i >= 0] *)
Definition getitem_bud_label (b : bud_label_t) (i : nat) : pyresult string :=
  match b with
  | BudNone => Raise (TypeError "'NoneType' object is not subscriptable")
  | BudStr s =>
      match String.get i s with
      | Some c => Ok (String c EmptyString)
      | None => Raise (IndexError "string index out of range")
      end
  | BudList l =>
      match l !! i with
      | Some x => Ok x
      | None => Raise (IndexError "list index out of range")
      end
  end.

(** [self.def_iface[i]] for [i >= 0] *)
Definition getitem_def_iface (d : def_iface_t) (i : nat) : pyresult Z :=
  match d with
  | IfaceNone => Raise (TypeError "'NoneType' object is not subscriptable")
  | IfaceInt _ => Raise (TypeError "'int' object is not subscriptable")
  | IfaceList l =>
      match l !! i with
      | Some x => Ok x
      | None => Raise (IndexError "list index out of range")
      end
  end.

(** ** The file store *)

(** Files by path, open handles by descriptor, and the next descriptor. *)
Record FileSystem : Type := mkFS {
  fs_files : gmap string string;
  fs_handles : gmap nat string;
  fs_next : nat
}.

Definition empty_fs : FileSystem := mkFS ∅ ∅ 0.

(** Effects: a computation reads and updates the file store and returns a
    value or raises; the store keeps what was done before the raise. *)
Definition io (A : Type) : Type := FileSystem -> pyresult A * FileSystem.

#[export] Instance io_ret : MRet io := fun A a fs => (Ok a, fs).
#[export] Instance io_bind : MBind io := fun A B k c fs =>
  match c fs with
  | (Ok a, fs') => k a fs'
  | (Raise e, fs') => (Raise e, fs')
  end.

Definition raise {A} (e : pyerror) : io A := fun fs => (Raise e, fs).

Definition lift {A} (r : pyresult A) : io A := fun fs => (r, fs).

(** [open(path, 'w')]: creates or truncates the file and yields a fresh
    handle.  The store has no notion of an unwritable path, so the call
    itself does not raise here. *)
Definition py_open_w (path : string) : io nat := fun fs =>
  (Ok (fs_next fs),
   mkFS (<[path := ""]> (fs_files fs))
        (<[fs_next fs := path]> (fs_handles fs))
        (S (fs_next fs))).

(** [f.write(s)] *)
Definition py_write (fd : nat) (s : string) : io unit := fun fs =>
  match fs_handles fs !! fd with
  | Some path =>
      (Ok tt,
       mkFS (<[path := default "" (fs_files fs !! path) +:+ s]> (fs_files fs))
            (fs_handles fs) (fs_next fs))
  | None => (Raise (ValueError "I/O operation on closed file"), fs)
  end.

(** [f.close()] *)
Definition py_close (fd : nat) : io unit := fun fs =>
  (Ok tt, mkFS (fs_files fs) (delete fd (fs_handles fs)) (fs_next fs)).

Definition is_open (fd : nat) (fs : FileSystem) : bool :=
  bool_decide (is_Some (fs_handles fs !! fd)).

Definition read_file (path : string) (fs : FileSystem) : option string :=
  fs_files fs !! path.

(** [for x in l: body(x)] *)
Fixpoint for_each {A} (l : list A) (body : A -> io unit) : io unit :=
  match l with
  | [] => mret tt
  | x :: r => body x ;; for_each r body
  end.

(** The lines of a text, each without its terminator. *)
Fixpoint split_lines_aux (cur : string) (s : string) : list string :=
  match s with
  | EmptyString => if String.eqb cur "" then [] else [String.rev cur]
  | String c r =>
      if Ascii.eqb c (ascii_of_nat 10)
      then String.rev cur :: split_lines_aux "" r
      else split_lines_aux (String c cur) r
  end.

Definition split_lines (s : string) : list string := split_lines_aux "" s.

(** ** The array-formatting helper *)

(** A one-dimensional layer array as [write_file] builds it. *)
Record Util2d : Type := mkUtil2d {
  u2d_shape : nat;
  u2d_dtype : np_dtype;
  u2d_value : list Z;
  u2d_name : string;
  u2d_locat : Z;
  u2d_fmtin : option string
}.

(** [lc.set_fmtin(fmtin)] *)
Definition set_fmtin (u : Util2d) (fmtin : string) : Util2d :=
  mkUtil2d (u2d_shape u) (u2d_dtype u) (u2d_value u) (u2d_name u)
           (u2d_locat u) (Some fmtin).

(** Modelled from the spec: the constructor of the helper's layer array
    ([Util2d] of [flopy.utils], not part of this file) from an existing
    sequence.  The array holds one value per layer: a sequence that has
    not as many entries as the shape asks for is refused with a plain
    exception. *)
Definition Util2d_init (shape : nat) (dtype : np_dtype) (value : list Z)
    (name : string) (locat : Z) : pyresult Util2d :=
  if (length value =? shape)%nat
  then Ok (mkUtil2d shape dtype value name locat None)
  else Raise (PyException "Util2d: the value does not have the shape").

(** A grid-shaped array as [__init__] builds it. *)
Record Util3d : Type := mkUtil3d {
  u3d_shape : nat * nat * nat;
  u3d_dtype : np_dtype;
  u3d_array : list (list (list np_scalar));
  u3d_name : string;
  u3d_locat : Z
}.

(** Modelled from the spec: the constructor of the helper's grid array
    ([Util3d] of [flopy.utils], not part of this file).  The input is
    resolved once into a dense array; a scalar fills the whole shape
    [(nlay, nrow, ncol)], an explicit array is taken as given. *)
Definition Util3d_init (shape : nat * nat * nat) (dtype : np_dtype)
    (value : array_input) (name : string) (locat : Z) : Util3d :=
  let '(nlay, nrow, ncol) := shape in
  mkUtil3d shape dtype
    match value with
    | UniformValue v => replicate nlay (replicate nrow (replicate ncol v))
    | ExplicitArray a => a
    end
    name locat.

(** The renderers of the helper ([Util2d.string] and
    [Util3d.get_file_entry]): their layout belongs to the helper, so the
    writer is stated over any implementation of them. *)
Class ArrayFormatter : Type := {
  Util2d_string : Util2d -> string;
  Util3d_get_file_entry : Util3d -> string
}.

(** ** The host models *)

(** The packages of the flow model that [write_file] looks at.  [laycon]
    is the layer array of BCF6, [laytyp] the one of LPF and UPW. *)
Inductive MfPackage : Type :=
| ModflowDis
| ModflowBcf (laycon : list Z)
| ModflowLpf (laytyp : list Z)
| ModflowUpw (laytyp : list Z)
| ModflowOther (name : string).

Definition pkg_name (p : MfPackage) : string :=
  match p with
  | ModflowDis => "DIS"
  | ModflowBcf _ => "BCF6"
  | ModflowLpf _ => "LPF"
  | ModflowUpw _ => "UPW"
  | ModflowOther n => n
  end.

(** [flow_package.laycon.get_value()] *)
Definition pkg_laycon (p : MfPackage) : pyresult (list Z) :=
  match p with
  | ModflowBcf v => Ok v
  | _ => Raise (AttributeError "laycon")
  end.

(** [flow_package.laytyp.get_value()] *)
Definition pkg_laytyp (p : MfPackage) : pyresult (list Z) :=
  match p with
  | ModflowLpf v | ModflowUpw v => Ok v
  | _ => Raise (AttributeError "laytyp")
  end.

Record Modflow : Type := mkModflow {
  nrow_ncol_nlay_nper : nat * nat * nat * nat;
  mf_packagelist : list MfPackage
}.

(** Modelled from the spec: the registry lookup [getPackage(kindTag)] of the
    host model (the base model class is not part of this file): the first
    registered package of that kind, or [None]. *)
Definition get_package (mf : Modflow) (name : string) : option MfPackage :=
  List.find (fun p => String.eqb (pkg_name p) name) (mf_packagelist mf).

(** ** The package *)

Record ModpathBas : Type := mkModpathBas {
  extension : string;
  name : string;
  unit_number : Z;
  fn_path : string;
  heading1 : string;
  heading2 : string;
  hnoflo : pyfloat;
  hdry : pyfloat;
  def_face_ct : Z;
  bud_label : bud_label_t;
  def_iface : def_iface_t;
  laytyp : laytyp_t;
  ibound : Util3d;
  prsity : Util3d;
  prsityCB : Util3d
}.

(** The particle-tracking model: [self.parent].  The package holds a
    reference to it, so it is passed to [write_file] as it is at that
    moment rather than copied into the package. *)
Record Modpath : Type := mkModpath {
  mp_name : string;
  mf : Modflow;
  mp_packagelist : list ModpathBas
}.

(** Modelled from the spec: the registration [addPackage] of the host
    model (the base model class is not part of this file): the package is
    appended to the packages the model tracks. *)
Definition add_package (model : Modpath) (p : ModpathBas) : Modpath :=
  mkModpath (mp_name model) (mf model) (mp_packagelist model ++ [p]).

(** The arguments of the constructor after [model]. *)
Record init_args : Type := mkArgs {
  a_hnoflo : pyfloat;
  a_hdry : pyfloat;
  a_def_face_ct : Z;
  a_bud_label : bud_label_t;
  a_def_iface : def_iface_t;
  a_laytyp : laytyp_t;
  a_ibound : array_input;
  a_prsity : array_input;
  a_prsityCB : array_input;
  a_extension : string;
  a_unitnumber : Z
}.

(** The defaults of the signature. *)
Definition default_args : init_args :=
  mkArgs (float_of_int (-9999)) (float_of_int (-8888))
         0 BudNone IfaceNone (LaytypInt 0)
         (UniformValue (NpInt 1))
         (UniformValue (NpFloat float_0_30))
         (UniformValue (NpFloat float_0_30))
         "mpbas" 86.

(** Modelled from the spec: the path that the base class constructor
    ([Package.__init__], not part of this file) derives from the model's
    base name and the extension. *)
Definition derive_fn_path (model : Modpath) (ext : string) : string :=
  mp_name model +:+ "." +:+ ext.

(** [ModpathBas.__init__]: returns the package and the model with the
    package registered.  No statement of it raises. *)
Definition __init__ (model : Modpath) (a : init_args)
    : pyresult (ModpathBas * Modpath) :=
  let '(nrow, ncol, nlay, nper) := nrow_ncol_nlay_nper (mf model) in
  let self :=
    mkModpathBas (a_extension a) "MPBAS" (a_unitnumber a)
      (derive_fn_path model (a_extension a))
      "# MPBAS for Modpath, generated by Flopy."
      "#"
      (a_hnoflo a) (a_hdry a) (a_def_face_ct a)
      (a_bud_label a) (a_def_iface a) (a_laytyp a)
      (Util3d_init (nlay, nrow, ncol) np_int32 (a_ibound a)
                   "ibound" (a_unitnumber a))
      (Util3d_init (nlay, nrow, ncol) np_float32 (a_prsity a)
                   "prsity" (a_unitnumber a))
      (Util3d_init (nlay, nrow, ncol) np_float32 (a_prsityCB a)
                   "prsityCB" (a_unitnumber a)) in
  Ok (self, add_package model self).

(** ** [write_file] *)

Section Writer.

Context `{ArrayFormatter}.

(** The first three [write] calls: both heading lines, the head values
    and the face count. *)
Definition header_text (self : ModpathBas) : string :=
  "#" +:+ heading1 self +:+ Fmt.nl +:+ "#" +:+ heading2 self +:+ Fmt.nl.

Definition heads_text (self : ModpathBas) : string :=
  Fmt.format_f 16 6 (hnoflo self) +:+ " " +:+
  Fmt.format_f 16 6 (hdry self) +:+ Fmt.nl.

Definition face_count_text (self : ModpathBas) : string :=
  Fmt.format_d 4 (def_face_ct self) +:+ Fmt.nl.

(** The body of the loop over [range(self.def_face_ct)]. *)
Definition write_face_entry (self : ModpathBas) (f_bas : nat) (i : nat)
    : io unit :=
  l ← lift (getitem_bud_label (bud_label self) i);
  py_write f_bas (Fmt.format_s 20 l +:+ Fmt.nl);;
  c ← lift (getitem_def_iface (def_iface self) i);
  py_write f_bas (Fmt.format_d 2 c +:+ Fmt.nl).

Definition write_face_entries (self : ModpathBas) (f_bas : nat) : io unit :=
  if 0 <? def_face_ct self
  then for_each (range (def_face_ct self)) (write_face_entry self f_bas)
  else mret tt.

(** [lc = Util2d(self.parent, (nlay,), np.int32, value,
    name='bas - laytype', locat=self.unit_number[0])] for the array of the
    package found; a refusal of the helper leaves the call. *)
Definition bind_lc (self : ModpathBas) (nlay : nat)
    (value : pyresult (list Z)) : pyresult (option Util2d) :=
  match value with
  | Ok v =>
      match Util2d_init nlay np_int32 v "bas - laytype" (unit_number self) with
      | Ok lc => Ok (Some lc)
      | Raise e => Raise e
      end
  | Raise e => Raise e
  end.

(** The nested probes for BCF6, LPF and UPW.  [Ok None] is the path on
    which no assignment to [lc] is executed. *)
Definition probe_flow_package (parent : Modpath) (self : ModpathBas)
    (nlay : nat) : pyresult (option Util2d) :=
  match get_package (mf parent) "BCF6" with
  | Some flow_package =>
      bind_lc self nlay (pkg_laycon flow_package)
  | None =>
      match get_package (mf parent) "LPF" with
      | Some flow_package =>
          bind_lc self nlay (pkg_laytyp flow_package)
      | None =>
          match get_package (mf parent) "UPW" with
          | Some flow_package =>
              bind_lc self nlay (pkg_laytyp flow_package)
          | None => Ok None
          end
      end
  end.

(** Reading the local [lc]. *)
Definition load_lc (lc : option Util2d) : io Util2d :=
  match lc with
  | Some u => mret u
  | None => raise (UnboundLocalError "lc")
  end.

Definition write_file (parent : Modpath) (self : ModpathBas) : io unit :=
  let '(nrow, ncol, nlay, nper) := nrow_ncol_nlay_nper (mf parent) in
  let ModflowDis := get_package (mf parent) "DIS" in
  f_bas ← py_open_w (fn_path self);
  py_write f_bas (header_text self);;
  py_write f_bas (heads_text self);;
  py_write f_bas (face_count_text self);;
  write_face_entries self f_bas;;
  lc ← lift (probe_flow_package parent self nlay);
  lc ← load_lc lc;
  let lc := set_fmtin lc "(40I2)" in
  py_write f_bas (Util2d_string lc);;
  py_write f_bas (Util3d_get_file_entry (ibound self));;
  py_write f_bas (Util3d_get_file_entry (prsity self));;
  py_write f_bas (Util3d_get_file_entry (prsityCB self));;
  py_close f_bas.

End Writer.

(** ** Reference denotations used in the statements *)

(** The store after [open(path, 'w')] on [fs] and writes that add up to
    [text]: the handle is still open. *)
Definition opened (path text : string) (fs : FileSystem) : FileSystem :=
  mkFS (<[path := text]> (fs_files fs))
       (<[fs_next fs := path]> (fs_handles fs))
       (S (fs_next fs)).

(** The same store once the handle has been closed. *)
Definition closed (path text : string) (fs : FileSystem) : FileSystem :=
  mkFS (<[path := text]> (fs_files fs))
       (delete (fs_next fs) (<[fs_next fs := path]> (fs_handles fs)))
       (S (fs_next fs)).

(** One label line followed by one code line. *)
Definition entry_text (l : string) (c : Z) : string :=
  Fmt.format_s 20 l +:+ Fmt.nl +:+ Fmt.format_d 2 c +:+ Fmt.nl.

(** The entries of two parallel sequences, in order. *)
Fixpoint entries_text (ls : list string) (cs : list Z) : string :=
  match ls, cs with
  | l :: ls', c :: cs' => entry_text l c +:+ entries_text ls' cs'
  | _, _ => ""
  end.

(** What the loop over the indices [idx] appends to the file and how it
    ends: the text of the writes executed before the first failing
    subscript, and that failure if there is one. *)
Fixpoint entries_run (b : bud_label_t) (d : def_iface_t) (idx : list nat)
    : string * pyresult unit :=
  match idx with
  | [] => ("", Ok tt)
  | i :: r =>
      match getitem_bud_label b i with
      | Raise e => ("", Raise e)
      | Ok l =>
          match getitem_def_iface d i with
          | Raise e => (Fmt.format_s 20 l +:+ Fmt.nl, Raise e)
          | Ok c =>
              (entry_text l c +:+ fst (entries_run b d r),
               snd (entries_run b d r))
          end
      end
  end.

Definition faces_run (self : ModpathBas) : string * pyresult unit :=
  if 0 <? def_face_ct self
  then entries_run (bud_label self) (def_iface self)
                   (range (def_face_ct self))
  else ("", Ok tt).

(** Everything written before the face entries. *)
Definition prefix_text (self : ModpathBas) : string :=
  header_text self +:+ heads_text self +:+ face_count_text self.

Definition nlay_of (parent : Modpath) : nat :=
  let '(nrow, ncol, nlay, nper) := nrow_ncol_nlay_nper (mf parent) in nlay.

(** The layer-type record and the three array sections. *)
Definition sections_text `{ArrayFormatter} (lc : Util2d) (self : ModpathBas)
    : string :=
  Util2d_string (set_fmtin lc "(40I2)") +:+
  Util3d_get_file_entry (ibound self) +:+
  Util3d_get_file_entry (prsity self) +:+
  Util3d_get_file_entry (prsityCB self).

(** [p] is in the registry of [m] and no package before it has its
    kind. *)
Definition first_of_kind (m : Modflow) (p : MfPackage) : Prop :=
  exists pre post,
    mf_packagelist m = (pre ++ p :: post)%list /\
    Forall (fun q => pkg_name q <> pkg_name p) pre.

(** No package of the kind is in the registry of [m]. *)
Definition no_package (m : Modflow) (kind : string) : Prop :=
  Forall (fun q => pkg_name q <> kind) (mf_packagelist m).

(** Specification side of the probe, in the words of the specification:
    the three kinds are tried in the order BCF6, LPF, UPW, the first
    registered one wins, and the layer array is the winner's own
    ([laycon] of a BCF6 package, [laytyp] of an LPF or UPW package). *)
Inductive flow_layer_array (m : Modflow) : list Z -> Prop :=
| layer_array_bcf laycon :
    first_of_kind m (ModflowBcf laycon) ->
    flow_layer_array m laycon
| layer_array_lpf laytyp :
    no_package m "BCF6" ->
    first_of_kind m (ModflowLpf laytyp) ->
    flow_layer_array m laytyp
| layer_array_upw laytyp :
    no_package m "BCF6" ->
    no_package m "LPF" ->
    first_of_kind m (ModflowUpw laytyp) ->
    flow_layer_array m laytyp.


(** What follows the face entries in the file: the layer-type record and
    the array sections when the call gets that far, nothing otherwise. *)
Definition tail_text `{ArrayFormatter} (parent : Modpath) (self : ModpathBas)
    : string :=
  match snd (faces_run self) with
  | Ok _ =>
      match probe_flow_package parent self (nlay_of parent) with
      | Ok (Some lc) => sections_text lc self
      | _ => ""
      end
  | Raise _ => ""
  end.

(** A subscript only ever fails with [TypeError] or [IndexError]. *)
Definition subscript_error (e : pyerror) : Prop :=
  match e with
  | TypeError _ | IndexError _ => True
  | _ => False
  end.


(** The line the specification gives for the head values. *)
Definition claimed_heads_line : string :=
  "     -9999.000000      -8888.000000".

(** A constructor argument record with another [laytyp]. *)
Definition with_laytyp (l : laytyp_t) (a : init_args) : init_args :=
  mkArgs (a_hnoflo a) (a_hdry a) (a_def_face_ct a) (a_bud_label a)
         (a_def_iface a) l (a_ibound a) (a_prsity a) (a_prsityCB a)
         (a_extension a) (a_unitnumber a).

(** ** A concrete formatter and concrete inputs *)

Module Helper.

Definition digit_of (c : ascii) : option nat :=
  let n := nat_of_ascii c in
  if ((48 <=? n) && (n <=? 57))%nat then Some (n - 48)%nat else None.

Fixpoint read_nat (acc : nat) (s : string) : nat * string :=
  match s with
  | String c r =>
      match digit_of c with
      | Some d => read_nat (10 * acc + d)%nat r
      | None => (acc, s)
      end
  | EmptyString => (acc, s)
  end.

(** A Fortran integer edit descriptor [(nIw)]: [n] values of width [w]
    on each line. *)
Definition parse_fmtin (s : string) : option (nat * nat) :=
  match s with
  | String "(" r =>
      let '(npl, r1) := read_nat 0 r in
      match r1 with
      | String "I" r2 =>
          let '(w, r3) := read_nat 0 r2 in
          if String.eqb r3 ")" then Some (npl, w) else None
      | _ => None
      end
  | _ => None
  end.

Fixpoint render_fixed (npl w col : nat) (l : list Z) : string :=
  match l with
  | [] => if (col =? 0)%nat then "" else Fmt.nl
  | x :: r =>
      Fmt.format_d w x +:+
      (if (S col =? npl)%nat
       then Fmt.nl +:+ render_fixed npl w 0 r
       else render_fixed npl w (S col) r)
  end.

Fixpoint render_free (l : list Z) : string :=
  match l with
  | [] => Fmt.nl
  | x :: r => " " +:+ Fmt.repr_int x +:+ render_free r
  end.

(** Modelled from the spec: the text of a layer array ([Util2d.string] of
    the helper, not part of this file) under its format string: for
    [(40I2)] one value per layer, 2 characters wide, 40 values per line. *)
Definition render_Util2d (u : Util2d) : string :=
  match u2d_fmtin u ≫= parse_fmtin with
  | Some (npl, w) => render_fixed npl w 0 (u2d_value u)
  | None => render_free (u2d_value u)
  end.

Definition render_scalar (v : np_scalar) : string :=
  match v with
  | NpInt z => " " +:+ Fmt.repr_int z
  | NpFloat x => " " +:+ Fmt.fixed_repr 6 x
  end.

Fixpoint render_row (r : list np_scalar) : string :=
  match r with
  | [] => Fmt.nl
  | v :: r' => render_scalar v +:+ render_row r'
  end.

Fixpoint render_rows (rows : list (list np_scalar)) : string :=
  match rows with
  | [] => ""
  | r :: rows' => render_row r +:+ render_rows rows'
  end.

Fixpoint render_layers (name : string) (k : nat)
    (layers : list (list (list np_scalar))) : string :=
  match layers with
  | [] => ""
  | a :: layers' =>
      "# " +:+ name +:+ " layer " +:+ Fmt.repr_int (Z.of_nat k) +:+ Fmt.nl +:+
      render_rows a +:+ render_layers name (S k) layers'
  end.

(** Modelled from the spec: the file entry of a grid array
    ([Util3d.get_file_entry] of the helper, not part of this file): one
    section per layer, each a control line followed by the data records
    of the layer. *)
Definition render_Util3d (u : Util3d) : string :=
  render_layers (u3d_name u) 1 (u3d_array u).

End Helper.

#[export] Instance fixed_formatter : ArrayFormatter :=
  {| Util2d_string := Helper.render_Util2d;
     Util3d_get_file_entry := Helper.render_Util3d |}.

(** A flow model of 3 layers, 2 rows and 2 columns with no flow package. *)
Definition mf_bare : Modflow := mkModflow (2, 2, 3, 1)%nat [ModflowDis].

(** The same grid with LPF and UPW registered (LPF comes second in the
    registry but first in the probe order). *)
Definition mf_lpf : Modflow :=
  mkModflow (2, 2, 3, 1)%nat
    [ModflowDis; ModflowUpw [0; 0; 0]; ModflowLpf [1; 0; 0]].

(** The same grid with all three kinds registered, BCF6 last. *)
Definition mf_bcf : Modflow :=
  mkModflow (2, 2, 3, 1)%nat
    [ModflowDis; ModflowUpw [0; 0; 0]; ModflowLpf [1; 0; 0];
     ModflowBcf [3; 1; 0]].

(** Three layers and an LPF package that holds two values. *)
Definition mf_short : Modflow :=
  mkModflow (2, 2, 3, 1)%nat [ModflowDis; ModflowLpf [1; 0]].

Definition model_bare : Modpath := mkModpath "ex" mf_bare [].
Definition model_bcf : Modpath := mkModpath "ex" mf_bcf [].
Definition model_short : Modpath := mkModpath "ex" mf_short [].
Definition model_lpf : Modpath := mkModpath "ex" mf_lpf [].

(** [def_face_ct=2] with both sequences of length 2. *)
Definition args_faces : init_args :=
  mkArgs (float_of_int (-9999)) (float_of_int (-8888))
         2 (BudList ["RECHARGE"; "WELLS"]) (IfaceList [6; 1]) (LaytypInt 0)
         (UniformValue (NpInt 1))
         (UniformValue (NpFloat float_0_30))
         (UniformValue (NpFloat float_0_30))
         "mpbas" 86.


(** The package a constructor call yields ([__init__] never raises; the
    second component is not used on the [Raise] side). *)
Definition built (model : Modpath) (a : init_args) : option ModpathBas :=
  match __init__ model a with
  | Ok (self, _) => Some self
  | Raise _ => None
  end.

(** ** Further vocabulary for the statements *)

(** How far a value can be subscripted from 0: the length of a list or
    of a string, nothing for [None] and for an [int]. *)
Definition bud_label_len (b : bud_label_t) : nat :=
  match b with
  | BudNone => 0
  | BudStr s => String.length s
  | BudList l => length l
  end.

Definition def_iface_len (d : def_iface_t) : nat :=
  match d with
  | IfaceList l => length l
  | _ => 0
  end.

Definition is_iface_list (d : def_iface_t) : bool :=
  match d with IfaceList _ => true | _ => false end.

(** The one-character strings of a string, in order. *)
Fixpoint chars_of_string (s : string) : list string :=
  match s with
  | EmptyString => []
  | String c r => String c EmptyString :: chars_of_string r
  end.

(** The package with another [bud_label]. *)
Definition with_bud_label (b : bud_label_t) (self : ModpathBas) : ModpathBas :=
  mkModpathBas (extension self) (name self) (unit_number self) (fn_path self)
    (heading1 self) (heading2 self) (hnoflo self) (hdry self)
    (def_face_ct self) b (def_iface self) (laytyp self)
    (ibound self) (prsity self) (prsityCB self).

(** A text without line terminator. *)
Fixpoint no_newline (s : string) : bool :=
  match s with
  | EmptyString => true
  | String c r => negb (Ascii.eqb c (ascii_of_nat 10)) && no_newline r
  end.

(** A text whose first character exists and is not a blank. *)
Definition starts_nonblank (s : string) : bool :=
  match s with
  | EmptyString => false
  | String c _ => negb (Ascii.eqb c " ")
  end.

(** The lines of the entries of two parallel sequences. *)
Fixpoint entry_lines (ls : list string) (cs : list Z) : list string :=
  match ls, cs with
  | l :: ls', c :: cs' =>
      Fmt.format_s 20 l :: Fmt.format_d 2 c :: entry_lines ls' cs'
  | _, _ => []
  end.

(** Default arguments with the three face arguments replaced. *)
Definition faces_args (n : Z) (b : bud_label_t) (d : def_iface_t) : init_args :=
  mkArgs (float_of_int (-9999)) (float_of_int (-8888)) n b d (LaytypInt 0)
         (UniformValue (NpInt 1))
         (UniformValue (NpFloat float_0_30))
         (UniformValue (NpFloat float_0_30))
         "mpbas" 86.

(** A store with another file and another open handle. *)
Definition fs_busy : FileSystem :=
  mkFS {["notes.txt" := "keep"]} {[0%nat := "notes.txt"]} 1.

(** Another grid, no DIS, an unrelated package, and the same answers to
    the three probes as [mf_lpf]. *)
Definition mf_regrid : Modflow :=
  mkModflow (7, 9, 3, 4)%nat
    [ModflowLpf [1; 0; 0]; ModflowOther "WEL"; ModflowUpw [0; 0; 0]].

Definition model_regrid : Modpath := mkModpath "other" mf_regrid [].

(** ** Basic facts *)

Lemma string_app_assoc (a b c : string) : (a +:+ b) +:+ c = a +:+ b +:+ c.
Proof.
  induction a as [|x a IH]; [reflexivity |].
  change (String x ((a +:+ b) +:+ c) = String x (a +:+ b +:+ c)).
  now rewrite IH.
Qed.

Lemma string_app_nil_r (a : string) : a +:+ "" = a.
Proof.
  induction a as [|x a IH]; [reflexivity |].
  change (String x (a +:+ "") = String x a).
  now rewrite IH.
Qed.

Lemma bind_ok {A B} (c : io A) (k : A -> io B) fs a fs' :
  c fs = (Ok a, fs') -> (c ≫= k) fs = k a fs'.
Proof. intros E. unfold mbind, io_bind. now rewrite E. Qed.

Lemma bind_raise {A B} (c : io A) (k : A -> io B) fs e fs' :
  c fs = (Raise e, fs') -> (c ≫= k) fs = (Raise e, fs').
Proof. intros E. unfold mbind, io_bind. now rewrite E. Qed.

Lemma py_open_w_opened path fs :
  py_open_w path fs = (Ok (fs_next fs), opened path "" fs).
Proof. reflexivity. Qed.

Lemma py_write_opened path t s fs :
  py_write (fs_next fs) s (opened path t fs)
  = (Ok tt, opened path (t +:+ s) fs).
Proof.
  unfold py_write, opened; simpl.
  rewrite lookup_insert_eq. simpl.
  rewrite lookup_insert_eq. simpl.
  now rewrite insert_insert_eq.
Qed.

Lemma py_close_opened path t fs :
  py_close (fs_next fs) (opened path t fs) = (Ok tt, closed path t fs).
Proof. reflexivity. Qed.

(** ** The run of [write_file] *)

Section Run.

Context `{ArrayFormatter}.

Lemma write_face_entry_run self path i t fs :
  write_face_entry self (fs_next fs) i (opened path t fs)
  = match getitem_bud_label (bud_label self) i with
    | Raise e => (Raise e, opened path t fs)
    | Ok l =>
        match getitem_def_iface (def_iface self) i with
        | Raise e => (Raise e, opened path (t +:+ Fmt.format_s 20 l +:+ Fmt.nl) fs)
        | Ok c => (Ok tt, opened path (t +:+ entry_text l c) fs)
        end
    end.
Proof.
  unfold write_face_entry.
  destruct (getitem_bud_label (bud_label self) i) as [l|e]; [|reflexivity].
  erewrite bind_ok by reflexivity.
  erewrite bind_ok by apply py_write_opened.
  destruct (getitem_def_iface (def_iface self) i) as [c|e]; [|reflexivity].
  erewrite bind_ok by reflexivity.
  rewrite py_write_opened. unfold entry_text.
  now rewrite !string_app_assoc.
Qed.

Lemma for_each_entries_run self path idx : forall t fs,
  for_each idx (write_face_entry self (fs_next fs)) (opened path t fs)
  = (snd (entries_run (bud_label self) (def_iface self) idx),
     opened path
       (t +:+ fst (entries_run (bud_label self) (def_iface self) idx)) fs).
Proof.
  induction idx as [|i r IH]; intros t fs.
  - cbn. now rewrite string_app_nil_r.
  - cbn [for_each entries_run].
    pose proof (write_face_entry_run self path i t fs) as E.
    destruct (getitem_bud_label (bud_label self) i) as [l|e].
    + destruct (getitem_def_iface (def_iface self) i) as [c|e].
      * erewrite bind_ok by exact E. rewrite IH. cbn [fst snd].
        now rewrite string_app_assoc.
      * erewrite bind_raise by exact E. reflexivity.
    + erewrite bind_raise by exact E. cbn [fst snd].
      now rewrite string_app_nil_r.
Qed.

Lemma write_face_entries_run self path t fs :
  write_face_entries self (fs_next fs) (opened path t fs)
  = (snd (faces_run self), opened path (t +:+ fst (faces_run self)) fs).
Proof.
  unfold write_face_entries, faces_run.
  destruct (0 <? def_face_ct self).
  - apply for_each_entries_run.
  - cbn. now rewrite string_app_nil_r.
Qed.

(** The whole call, path by path. *)
Lemma write_file_run parent self fs :
  write_file parent self fs =
  let path := fn_path self in
  let t := prefix_text self +:+ fst (faces_run self) in
  match snd (faces_run self) with
  | Raise e => (Raise e, opened path t fs)
  | Ok _ =>
      match probe_flow_package parent self (nlay_of parent) with
      | Raise e => (Raise e, opened path t fs)
      | Ok None => (Raise (UnboundLocalError "lc"), opened path t fs)
      | Ok (Some lc) =>
          (Ok tt, closed path (t +:+ sections_text lc self) fs)
      end
  end.
Proof.
  unfold write_file, nlay_of.
  destruct (nrow_ncol_nlay_nper (mf parent)) as [[[nrow ncol] nlay] nper].
  cbv zeta.
  erewrite bind_ok by apply py_open_w_opened.
  erewrite bind_ok by apply py_write_opened.
  erewrite bind_ok by apply py_write_opened.
  erewrite bind_ok by apply py_write_opened.
  rewrite string_app_assoc.
  change ("" +:+ header_text self +:+ heads_text self +:+ face_count_text self)
    with (prefix_text self).
  pose proof (write_face_entries_run self (fn_path self) (prefix_text self) fs)
    as E.
  destruct (snd (faces_run self)) as [[]|e].
  - erewrite bind_ok by exact E.
    destruct (probe_flow_package parent self nlay) as [[lc|]|e].
    + erewrite bind_ok by reflexivity.
      erewrite bind_ok by reflexivity.
      erewrite bind_ok by apply py_write_opened.
      erewrite bind_ok by apply py_write_opened.
      erewrite bind_ok by apply py_write_opened.
      erewrite bind_ok by apply py_write_opened.
      rewrite py_close_opened. unfold sections_text.
      now rewrite !string_app_assoc.
    + erewrite bind_ok by reflexivity. reflexivity.
    + reflexivity.
  - erewrite bind_raise by exact E. reflexivity.
Qed.

End Run.

(** ** Consequences of the run *)

Section Facts.

Context `{ArrayFormatter}.

Lemma read_file_opened path t fs : read_file path (opened path t fs) = Some t.
Proof. unfold read_file, opened; simpl. apply lookup_insert_eq. Qed.

Lemma read_file_closed path t fs : read_file path (closed path t fs) = Some t.
Proof. unfold read_file, closed; simpl. apply lookup_insert_eq. Qed.

Lemma is_open_opened path t fs : is_open (fs_next fs) (opened path t fs) = true.
Proof.
  unfold is_open, opened; simpl. apply bool_decide_eq_true.
  rewrite lookup_insert_eq. eauto.
Qed.

Lemma is_open_closed path t fs : is_open (fs_next fs) (closed path t fs) = false.
Proof.
  unfold is_open, closed; simpl. apply bool_decide_eq_false.
  rewrite lookup_delete_eq. intros [x Hx]. discriminate.
Qed.

(** The result of the call. *)
Lemma write_file_result parent self fs :
  fst (write_file parent self fs) =
  match snd (faces_run self) with
  | Raise e => Raise e
  | Ok _ =>
      match probe_flow_package parent self (nlay_of parent) with
      | Raise e => Raise e
      | Ok None => Raise (UnboundLocalError "lc")
      | Ok (Some _) => Ok tt
      end
  end.
Proof.
  rewrite write_file_run. cbv zeta.
  destruct (snd (faces_run self)) as [[]|e]; [|reflexivity].
  now destruct (probe_flow_package parent self (nlay_of parent)) as [[lc|]|e].
Qed.

(** The file the call leaves at its path. *)
Lemma write_file_content parent self fs :
  read_file (fn_path self) (snd (write_file parent self fs)) =
  Some (prefix_text self +:+ fst (faces_run self) +:+ tail_text parent self).
Proof.
  rewrite write_file_run. cbv zeta. unfold tail_text.
  destruct (snd (faces_run self)) as [[]|e].
  - destruct (probe_flow_package parent self (nlay_of parent)) as [[lc|]|e];
      cbn [snd].
    + now rewrite read_file_closed, ?string_app_assoc.
    + now rewrite read_file_opened, ?string_app_assoc, ?string_app_nil_r.
    + now rewrite read_file_opened, ?string_app_assoc, ?string_app_nil_r.
  - cbn [snd]. now rewrite read_file_opened, ?string_app_assoc, ?string_app_nil_r.
Qed.

Lemma probe_none parent self nlay :
  get_package (mf parent) "BCF6" = None ->
  get_package (mf parent) "LPF" = None ->
  get_package (mf parent) "UPW" = None ->
  probe_flow_package parent self nlay = Ok None.
Proof. intros B L U. unfold probe_flow_package. now rewrite B, L, U. Qed.

Lemma entries_run_error b d idx e :
  snd (entries_run b d idx) = Raise e -> subscript_error e.
Proof.
  induction idx as [|i r IH]; cbn [entries_run]; [discriminate |].
  destruct (getitem_bud_label b i) as [l|e1] eqn:Eb.
  - destruct (getitem_def_iface d i) as [c|e2] eqn:Ed; cbn [snd]; [exact IH |].
    intros [= <-]. destruct d as [|n|cs]; cbn in Ed.
    + now injection Ed as <-.
    + now injection Ed as <-.
    + destruct (cs !! i); [discriminate | now injection Ed as <-].
  - cbn [snd]. intros [= <-]. destruct b as [|s|ls]; cbn in Eb.
    + now injection Eb as <-.
    + destruct (String.get i s); [discriminate | now injection Eb as <-].
    + destruct (ls !! i); [discriminate | now injection Eb as <-].
Qed.

Lemma faces_run_error self e :
  snd (faces_run self) = Raise e -> subscript_error e.
Proof.
  unfold faces_run. destruct (0 <? def_face_ct self); [|discriminate].
  apply entries_run_error.
Qed.

End Facts.

(** ** Missing flow package, partial file, open handle *)

Section Failure.

Context `{ArrayFormatter}.

(** C1 (the code departs from it).  With none of BCF6, LPF and UPW
    registered, [write_file] does raise, but the exception is never the
    explicit [MissingDependencyError]: the chain of probes has no final
    [else], no assignment to [lc] is executed, and once the face entries
    are written the statement [lc.set_fmtin] raises [UnboundLocalError]
    for the local [lc]. *)
Theorem write_file_no_flow_package_unbound_local parent self fs :
  get_package (mf parent) "BCF6" = None ->
  get_package (mf parent) "LPF" = None ->
  get_package (mf parent) "UPW" = None ->
  is_ok (fst (write_file parent self fs)) = false /\
  fst (write_file parent self fs) <> Raise MissingDependencyError /\
  (snd (faces_run self) = Ok tt ->
   fst (write_file parent self fs) = Raise (UnboundLocalError "lc")).
Proof.
  intros B L U. rewrite write_file_result.
  rewrite (probe_none parent self _ B L U).
  destruct (snd (faces_run self)) as [[]|e] eqn:F.
  - split; [reflexivity | split; [discriminate | reflexivity]].
  - split; [reflexivity | split; [| discriminate]].
    intros [= ->]. exact (faces_run_error self _ F).
Qed.

(** C2 (amended).  With no flow package registered the call fails after
    the file has been opened for writing: whatever was at the path before,
    the file then holds the heading lines, the head values, the face count
    and the face entries written so far, and nothing else. *)
Theorem write_file_no_flow_package_partial_file parent self fs :
  get_package (mf parent) "BCF6" = None ->
  get_package (mf parent) "LPF" = None ->
  get_package (mf parent) "UPW" = None ->
  is_ok (fst (write_file parent self fs)) = false /\
  read_file (fn_path self) (snd (write_file parent self fs))
  = Some (prefix_text self +:+ fst (faces_run self)).
Proof.
  intros B L U. split.
  - rewrite write_file_result, (probe_none parent self _ B L U).
    now destruct (snd (faces_run self)) as [[]|e].
  - rewrite write_file_content. unfold tail_text.
    rewrite (probe_none parent self _ B L U).
    destruct (snd (faces_run self)) as [[]|e]; now rewrite string_app_nil_r.
Qed.

(** C4 (amended).  The handle that [write_file] opens is closed by the
    last statement of a successful call and by nothing else: after the
    call it is open exactly when the call raised. *)
Theorem write_file_handle_open_iff_raised parent self fs :
  is_open (fs_next fs) (snd (write_file parent self fs))
  = negb (is_ok (fst (write_file parent self fs))).
Proof.
  rewrite write_file_run. cbv zeta.
  destruct (snd (faces_run self)) as [[]|e].
  - destruct (probe_flow_package parent self (nlay_of parent)) as [[lc|]|e];
      cbn [fst snd is_ok negb];
      auto using is_open_opened, is_open_closed.
  - cbn [fst snd is_ok negb]. apply is_open_opened.
Qed.

End Failure.

Lemma write_file_no_flow_package_unbound_local_witness :
  exists self,
    built model_bare default_args = Some self /\
    get_package (mf model_bare) "BCF6" = None /\
    get_package (mf model_bare) "LPF" = None /\
    get_package (mf model_bare) "UPW" = None /\
    fst (write_file model_bare self empty_fs) = Raise (UnboundLocalError "lc").
Proof.
  eexists. split; [reflexivity |].
  do 3 (split; [reflexivity |]).
  apply (write_file_no_flow_package_unbound_local model_bare _ empty_fs);
    reflexivity.
Defined.

Lemma write_file_no_flow_package_partial_file_witness :
  exists self,
    built model_bare default_args = Some self /\
    get_package (mf model_bare) "BCF6" = None /\
    get_package (mf model_bare) "LPF" = None /\
    get_package (mf model_bare) "UPW" = None /\
    is_ok (fst (write_file model_bare self empty_fs)) = false /\
    read_file (fn_path self) (snd (write_file model_bare self empty_fs))
    = Some (prefix_text self +:+ fst (faces_run self)).
Proof.
  eexists. split; [reflexivity |].
  do 3 (split; [reflexivity |]).
  apply (write_file_no_flow_package_partial_file model_bare _ empty_fs);
    reflexivity.
Defined.

(** C2, as stated, fails: the file did not exist before the call, the call
    raised, and the file now exists with the first four lines only. *)
Lemma write_file_failure_leaves_partial_file :
  exists self,
    built model_bare default_args = Some self /\
    read_file (fn_path self) empty_fs = None /\
    is_ok (fst (write_file model_bare self empty_fs)) = false /\
    split_lines <$>
      read_file (fn_path self) (snd (write_file model_bare self empty_fs))
    = Some ["## MPBAS for Modpath, generated by Flopy."; "##";
            "    -9999.000000     -8888.000000"; "   0"] /\
    read_file (fn_path self) (snd (write_file model_bare self empty_fs))
    <> read_file (fn_path self) empty_fs.
Proof.
  eexists. split; [reflexivity |].
  repeat split; try (vm_compute; reflexivity).
  vm_compute. discriminate.
Qed.

(** C4, as stated, fails: on the failure path of a model without flow
    package the handle is still open when the call has raised. *)
Lemma write_file_failure_leaves_handle_open :
  exists self,
    built model_bare default_args = Some self /\
    is_open (fs_next empty_fs) empty_fs = false /\
    is_ok (fst (write_file model_bare self empty_fs)) = false /\
    is_open (fs_next empty_fs) (snd (write_file model_bare self empty_fs))
    = true.
Proof.
  eexists. split; [reflexivity |].
  repeat split; vm_compute; reflexivity.
Qed.

(** ** Construction and the face entries *)

Section Faces.

Context `{ArrayFormatter}.

Lemma init_ok model a :
  exists self, __init__ model a = Ok (self, add_package model self) /\
    hnoflo self = a_hnoflo a /\ hdry self = a_hdry a /\
    def_face_ct self = a_def_face_ct a /\
    bud_label self = a_bud_label a /\ def_iface self = a_def_iface a /\
    heading1 self = "# MPBAS for Modpath, generated by Flopy." /\
    heading2 self = "#".
Proof.
  unfold __init__.
  destruct (nrow_ncol_nlay_nper (mf model)) as [[[nrow ncol] nlay] nper].
  eexists. split; [reflexivity |]. cbn. tauto.
Qed.

Lemma entries_run_lists ls cs n : forall start,
  (start + n <= length ls)%nat -> (start + n <= length cs)%nat ->
  entries_run (BudList ls) (IfaceList cs) (seq start n)
  = (entries_text (take n (drop start ls)) (take n (drop start cs)), Ok tt).
Proof.
  induction n as [|n IH]; intros start Hl Hc.
  - reflexivity.
  - cbn [seq entries_run getitem_bud_label getitem_def_iface].
    destruct (lookup_lt_is_Some_2 ls start) as [l El]; [lia |].
    destruct (lookup_lt_is_Some_2 cs start) as [c Ec]; [lia |].
    rewrite El, Ec, (IH (S start)) by lia. cbn [fst snd].
    rewrite (drop_S ls l start El), (drop_S cs c start Ec).
    reflexivity.
Qed.


(** C6.  With [def_face_ct > 0] and both sequences at least that long,
    the file holds, right after the face-count line, one label line
    ([20s]) followed by one code line ([2d]) for each of the first
    [def_face_ct] entries, in order, and the loop raises nothing. *)
Theorem face_entries_follow_face_count parent self fs ls cs :
  0 < def_face_ct self ->
  bud_label self = BudList ls ->
  def_iface self = IfaceList cs ->
  (Z.to_nat (def_face_ct self) <= length ls)%nat ->
  (Z.to_nat (def_face_ct self) <= length cs)%nat ->
  snd (faces_run self) = Ok tt /\
  read_file (fn_path self) (snd (write_file parent self fs))
  = Some (prefix_text self +:+
          entries_text (take (Z.to_nat (def_face_ct self)) ls)
                       (take (Z.to_nat (def_face_ct self)) cs) +:+
          tail_text parent self).
Proof.
  intros Hn Hb Hd Hl Hc.
  assert (F : faces_run self
              = (entries_text (take (Z.to_nat (def_face_ct self)) ls)
                              (take (Z.to_nat (def_face_ct self)) cs),
                 Ok tt)).
  { unfold faces_run, range. rewrite Hb, Hd.
    apply Z.ltb_lt in Hn as ->.
    now rewrite entries_run_lists by (simpl; lia). }
  split.
  - now rewrite F.
  - rewrite write_file_content. now rewrite F.
Qed.

End Faces.



Lemma face_entries_follow_face_count_witness :
  exists self,
    built model_lpf args_faces = Some self /\
    0 < def_face_ct self /\
    (Z.to_nat (def_face_ct self) <= length ["RECHARGE"; "WELLS"])%nat /\
    (Z.to_nat (def_face_ct self) <= length [6; 1])%nat /\
    split_lines (entries_text ["RECHARGE"; "WELLS"] [6; 1])
    = ["RECHARGE            "; " 6"; "WELLS               "; " 1"] /\
    read_file (fn_path self) (snd (write_file model_lpf self empty_fs))
    = Some (prefix_text self +:+
            entries_text ["RECHARGE"; "WELLS"] [6; 1] +:+
            tail_text model_lpf self).
Proof.
  eexists. split; [reflexivity |].
  split; [reflexivity |]. split; [simpl; lia |]. split; [simpl; lia |].
  split; [reflexivity |].
  refine (proj2 (face_entries_follow_face_count model_lpf _ empty_fs
                   ["RECHARGE"; "WELLS"] [6; 1] _ _ _ _ _));
    try reflexivity; simpl; lia.
Defined.

(** ** The head values *)

Section Heads.

Context `{ArrayFormatter}.

Lemma third_line_after_headings (rest : string) :
  split_lines
    (("#" +:+ "# MPBAS for Modpath, generated by Flopy." +:+ Fmt.nl +:+
      "#" +:+ "#" +:+ Fmt.nl) +:+
     (Fmt.format_f 16 6 (float_of_int (-9999)) +:+ " " +:+
      Fmt.format_f 16 6 (float_of_int (-8888)) +:+ Fmt.nl) +:+ rest)
  = "## MPBAS for Modpath, generated by Flopy." :: "##"
    :: "    -9999.000000     -8888.000000" :: split_lines rest.
Proof. vm_compute. reflexivity. Qed.

(** C5 (amended).  With [hnoflo=-9999.0] and [hdry=-8888.0] the head
    values are on the third line of the file, after the two heading lines
    (the second line is ["##"]), and that line is each value in a field
    of width 16 with 6 decimals, one space between the fields: 4 blanks
    before the first value and 5 between the two. *)
Theorem head_values_on_third_line model a parent fs :
  a_hnoflo a = float_of_int (-9999) ->
  a_hdry a = float_of_int (-8888) ->
  exists self content,
    __init__ model a = Ok (self, add_package model self) /\
    read_file (fn_path self) (snd (write_file parent self fs)) = Some content /\
    split_lines content !! 1%nat = Some "##" /\
    split_lines content !! 2%nat = Some "    -9999.000000     -8888.000000".
Proof.
  intros Hn Hd.
  destruct (init_ok model a) as (self & E & En & Ed & _ & _ & _ & H1 & H2).
  exists self. eexists. split; [exact E |].
  split; [apply write_file_content |].
  unfold prefix_text.
  rewrite (string_app_assoc (header_text self)).
  rewrite (string_app_assoc (heads_text self)).
  unfold header_text, heads_text.
  rewrite H1, H2, En, Ed, Hn, Hd.
  rewrite third_line_after_headings. split; reflexivity.
Qed.

End Heads.

Lemma head_values_on_third_line_witness :
  exists self content,
    built model_lpf default_args = Some self /\
    a_hnoflo default_args = float_of_int (-9999) /\
    a_hdry default_args = float_of_int (-8888) /\
    read_file (fn_path self) (snd (write_file model_lpf self empty_fs))
    = Some content /\
    split_lines content !! 2%nat = Some "    -9999.000000     -8888.000000".
Proof.
  destruct (head_values_on_third_line model_lpf default_args model_lpf
              empty_fs eq_refl eq_refl) as (self & content & E & R & _ & L).
  exists self, content.
  split; [unfold built; now rewrite E |].
  do 2 (split; [reflexivity |]). split; [exact R | exact L].
Defined.

(** C5, as stated, fails: the second line of the file is the second
    heading line, and no line of the file is the string of the claim,
    which has one blank too many before each value. *)
Lemma claimed_heads_line_not_in_file :
  exists self content,
    built model_lpf default_args = Some self /\
    hnoflo self = float_of_int (-9999) /\
    hdry self = float_of_int (-8888) /\
    read_file (fn_path self) (snd (write_file model_lpf self empty_fs))
    = Some content /\
    split_lines content !! 1%nat = Some "##" /\
    split_lines content !! 1%nat <> Some claimed_heads_line /\
    claimed_heads_line ∉ split_lines content.
Proof.
  eexists. eexists. split; [reflexivity |].
  do 2 (split; [reflexivity |]).
  split; [vm_compute; reflexivity |].
  split; [reflexivity |]. split; [discriminate |].
  apply (bool_decide_unpack _). vm_compute. exact I.
Qed.

(** ** The layer types, the grids and [laytyp] *)

Lemma find_first_split {A} (f : A -> bool) (l : list A) p :
  List.find f l = Some p ->
  exists pre post,
    l = (pre ++ p :: post)%list /\ Forall (fun q => f q = false) pre /\
    f p = true.
Proof.
  induction l as [|x l IH]; cbn [List.find]; [discriminate |].
  destruct (f x) eqn:Fx.
  - intros [= ->]. exists [], l. repeat split; [constructor | exact Fx].
  - intros E. destruct (IH E) as (pre & post & -> & F & Fp).
    exists (x :: pre), post. repeat split; [constructor; assumption | exact Fp].
Qed.

Lemma get_package_first_of_kind m p :
  first_of_kind m p -> get_package m (pkg_name p) = Some p.
Proof.
  intros (pre & post & E & F). unfold get_package. rewrite E. clear E.
  induction F as [|q pre Hq F IH]; cbn [List.find app].
  - now rewrite String.eqb_refl.
  - apply String.eqb_neq in Hq. now rewrite Hq.
Qed.

Lemma get_package_no_package m kind :
  no_package m kind -> get_package m kind = None.
Proof.
  unfold no_package, get_package.
  induction 1 as [|q l Hq F IH]; cbn [List.find]; [reflexivity |].
  apply String.eqb_neq in Hq. now rewrite Hq.
Qed.

Lemma get_package_some_inv m kind p :
  get_package m kind = Some p -> first_of_kind m p /\ pkg_name p = kind.
Proof.
  unfold get_package. intros E.
  destruct (find_first_split _ _ _ E) as (pre & post & L & F & Fp).
  apply String.eqb_eq in Fp. split; [| exact Fp].
  exists pre, post. split; [exact L |].
  eapply Forall_impl; [exact F |].
  intros q Hq. rewrite Fp. now apply String.eqb_neq.
Qed.

Lemma get_package_none_inv m kind :
  get_package m kind = None -> no_package m kind.
Proof.
  unfold get_package, no_package.
  induction (mf_packagelist m) as [|q l IH]; cbn [List.find]; [constructor |].
  destruct (String.eqb (pkg_name q) kind) eqn:E; [discriminate |].
  intros N. constructor; [now apply String.eqb_neq | now apply IH].
Qed.

(** The probe on a model whose layer array is [v]. *)
Lemma probe_of_layer_array parent self nlay v :
  flow_layer_array (mf parent) v ->
  probe_flow_package parent self nlay = bind_lc self nlay (Ok v).
Proof.
  intros [laycon B | laytyp NB L | laytyp NB NL U]; unfold probe_flow_package.
  - apply get_package_first_of_kind in B. cbn [pkg_name] in B.
    now rewrite B.
  - apply get_package_first_of_kind in L. cbn [pkg_name] in L.
    now rewrite (get_package_no_package _ _ NB), L.
  - apply get_package_first_of_kind in U. cbn [pkg_name] in U.
    now rewrite (get_package_no_package _ _ NB),
      (get_package_no_package _ _ NL), U.
Qed.

Lemma bind_lc_some_inv self nlay r lc :
  bind_lc self nlay r = Ok (Some lc) ->
  exists v, r = Ok v /\ length v = nlay /\
    lc = mkUtil2d nlay np_int32 v "bas - laytype" (unit_number self) None.
Proof.
  unfold bind_lc, Util2d_init. destruct r as [v|e]; [| discriminate].
  destruct (length v =? nlay)%nat eqn:E; [| discriminate].
  intros [= <-]. apply Nat.eqb_eq in E. eauto.
Qed.

(** A probe that binds [lc] found the layer array of the model. *)
Lemma probe_some_inv parent self nlay lc :
  probe_flow_package parent self nlay = Ok (Some lc) ->
  exists v, flow_layer_array (mf parent) v /\ length v = nlay /\
    lc = mkUtil2d nlay np_int32 v "bas - laytype" (unit_number self) None.
Proof.
  unfold probe_flow_package.
  destruct (get_package (mf parent) "BCF6") as [p|] eqn:B.
  { intros E. destruct (bind_lc_some_inv _ _ _ _ E) as (v & R & Lv & ->).
    apply get_package_some_inv in B as [B _].
    destruct p; try discriminate. injection R as ->.
    exists v. split; [now apply layer_array_bcf | auto]. }
  apply get_package_none_inv in B.
  destruct (get_package (mf parent) "LPF") as [p|] eqn:L.
  { intros E. destruct (bind_lc_some_inv _ _ _ _ E) as (v & R & Lv & ->).
    apply get_package_some_inv in L as [L N].
    destruct p; try discriminate; injection R as ->; try discriminate N.
    exists v. split; [now apply layer_array_lpf | auto]. }
  apply get_package_none_inv in L.
  destruct (get_package (mf parent) "UPW") as [p|] eqn:U; [| discriminate].
  intros E. destruct (bind_lc_some_inv _ _ _ _ E) as (v & R & Lv & ->).
  apply get_package_some_inv in U as [U N].
  destruct p; try discriminate; injection R as ->; try discriminate N.
  exists v. split; [now apply layer_array_upw | auto].
Qed.


Section Layers.

Context `{ArrayFormatter}.

(** C7.  Let [v] be the layer array of the flow model as the
    specification names it: the array of the first registered package
    when the kinds are tried in the order BCF6, LPF, UPW, that package's
    own array and not the [laytyp] stored in this package.  When the face
    entries are written and [v] has one value per layer, the call
    succeeds and the text written right after the face entries is [v] in
    a layer array of shape [(nlay,)] rendered under the format
    ['(40I2)'], followed by the three grid sections.  When [v] has not
    one value per layer the helper refuses it: the call raises and the
    file ends with the face entries. *)
Theorem layer_types_from_first_flow_package parent self fs v :
  flow_layer_array (mf parent) v ->
  snd (faces_run self) = Ok tt ->
  (length v = nlay_of parent ->
   fst (write_file parent self fs) = Ok tt /\
   read_file (fn_path self) (snd (write_file parent self fs))
   = Some (prefix_text self +:+ fst (faces_run self) +:+
           Util2d_string
             (mkUtil2d (nlay_of parent) np_int32 v "bas - laytype"
                       (unit_number self) (Some "(40I2)")) +:+
           Util3d_get_file_entry (ibound self) +:+
           Util3d_get_file_entry (prsity self) +:+
           Util3d_get_file_entry (prsityCB self))) /\
  (length v <> nlay_of parent ->
   (exists what,
      fst (write_file parent self fs) = Raise (PyException what)) /\
   read_file (fn_path self) (snd (write_file parent self fs))
   = Some (prefix_text self +:+ fst (faces_run self))).
Proof.
  intros A F.
  pose proof (probe_of_layer_array parent self (nlay_of parent) v A) as P.
  unfold bind_lc, Util2d_init in P.
  split; intros L.
  - apply Nat.eqb_eq in L. rewrite L in P. split.
    + now rewrite write_file_result, F, P.
    + rewrite write_file_content. unfold tail_text. now rewrite F, P.
  - apply Nat.eqb_neq in L. rewrite L in P. split.
    + eexists. now rewrite write_file_result, F, P.
    + rewrite write_file_content. unfold tail_text. rewrite F, P.
      now rewrite string_app_nil_r.
Qed.


(** C9.  Two packages built from the same arguments except [laytyp] give
    the same run of [write_file] on models with the same flow model: the
    same result and the same file store, hence the same file. *)
Theorem laytyp_argument_not_written model a l self1 m1 self2 m2
    parent1 parent2 fs :
  __init__ model a = Ok (self1, m1) ->
  __init__ model (with_laytyp l a) = Ok (self2, m2) ->
  mf parent1 = mf parent2 ->
  write_file parent1 self1 fs = write_file parent2 self2 fs.
Proof.
  unfold __init__.
  destruct (nrow_ncol_nlay_nper (mf model)) as [[[nrow ncol] nlay] nper].
  intros [= <- _] [= <- _] M.
  unfold write_file, probe_flow_package. rewrite M. reflexivity.
Qed.

(** C10.  With [def_face_ct <= 0] the face-count line ([4d]) is written,
    the loop is not entered, so neither [bud_label] nor [def_iface] is
    subscripted and whatever they are (also [None]) nothing is raised
    there: the count line is followed at once by the layer-type record,
    and the call ends as the probe for the flow package decides. *)
Theorem no_face_entries_when_count_not_positive parent self fs :
  def_face_ct self <= 0 ->
  (forall f_bas fs', write_face_entries self f_bas fs' = (Ok tt, fs')) /\
  faces_run self = ("", Ok tt) /\
  read_file (fn_path self) (snd (write_file parent self fs))
  = Some (header_text self +:+ heads_text self +:+
          Fmt.format_d 4 (def_face_ct self) +:+ Fmt.nl +:+
          tail_text parent self) /\
  fst (write_file parent self fs)
  = match probe_flow_package parent self (nlay_of parent) with
    | Raise e => Raise e
    | Ok None => Raise (UnboundLocalError "lc")
    | Ok (Some _) => Ok tt
    end.
Proof.
  intros Hn. apply Z.ltb_ge in Hn.
  assert (F : faces_run self = ("", Ok tt)).
  { unfold faces_run. now rewrite Hn. }
  split; [| split; [exact F | split]].
  - intros f_bas fs'. unfold write_face_entries. now rewrite Hn.
  - rewrite write_file_content, F. cbn [fst].
    unfold prefix_text, face_count_text.
    now rewrite !string_app_assoc.
  - now rewrite write_file_result, F.
Qed.

End Layers.

Lemma layer_types_from_first_flow_package_witness :
  exists self,
    built model_bcf args_faces = Some self /\
    flow_layer_array (mf model_bcf) [3; 1; 0] /\
    snd (faces_run self) = Ok tt /\
    length [3; 1; 0] = nlay_of model_bcf /\
    fst (write_file model_bcf self empty_fs) = Ok tt /\
    Util2d_string (mkUtil2d 3 np_int32 [3; 1; 0] "bas - laytype" 86
                            (Some "(40I2)"))
    = " 3 1 0" +:+ Fmt.nl /\
    flow_layer_array (mf model_short) [1; 0] /\
    length [1; 0] <> nlay_of model_short /\
    exists what,
      fst (write_file model_short self empty_fs) = Raise (PyException what).
Proof.
  assert (B : flow_layer_array (mf model_bcf) [3; 1; 0]).
  { apply layer_array_bcf.
    exists [ModflowDis; ModflowUpw [0; 0; 0]; ModflowLpf [1; 0; 0]], [].
    split; [reflexivity |]. repeat constructor; discriminate. }
  assert (S : flow_layer_array (mf model_short) [1; 0]).
  { apply layer_array_lpf.
    - repeat constructor; discriminate.
    - exists [ModflowDis], []. split; [reflexivity |].
      repeat constructor; discriminate. }
  eexists. split; [reflexivity |]. split; [exact B |].
  split; [reflexivity |]. split; [reflexivity |].
  split.
  - refine (proj1 (proj1 (layer_types_from_first_flow_package model_bcf _
                            empty_fs [3; 1; 0] B _) _)); reflexivity.
  - split; [vm_compute; reflexivity |]. split; [exact S |].
    split; [discriminate |].
    refine (proj1 (proj2 (layer_types_from_first_flow_package model_short _
                            empty_fs [1; 0] S _) _));
      [reflexivity | discriminate].
Defined.


Lemma laytyp_argument_not_written_witness :
  exists self1 self2,
    __init__ model_lpf default_args
    = Ok (self1, add_package model_lpf self1) /\
    __init__ model_lpf (with_laytyp (LaytypList [1; 1; 1]) default_args)
    = Ok (self2, add_package model_lpf self2) /\
    laytyp self1 <> laytyp self2 /\
    write_file (add_package model_lpf self1) self1 empty_fs
    = write_file (add_package model_lpf self2) self2 empty_fs.
Proof.
  eexists. eexists. split; [reflexivity |]. split; [reflexivity |].
  split; [discriminate |].
  eapply (laytyp_argument_not_written model_lpf default_args
            (LaytypList [1; 1; 1])); reflexivity.
Defined.

Lemma no_face_entries_when_count_not_positive_witness :
  exists self,
    built model_lpf default_args = Some self /\
    def_face_ct self <= 0 /\
    bud_label self = BudNone /\
    def_iface self = IfaceNone /\
    fst (write_file model_lpf self empty_fs) = Ok tt /\
    take 5 <$> (split_lines <$>
      read_file (fn_path self) (snd (write_file model_lpf self empty_fs)))
    = Some ["## MPBAS for Modpath, generated by Flopy."; "##";
            "    -9999.000000     -8888.000000"; "   0"; " 1 0 0"].
Proof.
  eexists. split; [reflexivity |].
  split; [simpl; lia |]. do 2 (split; [reflexivity |]).
  split.
  - refine (eq_trans
              (proj2 (proj2 (proj2 (no_face_entries_when_count_not_positive
                                      model_lpf _ empty_fs _))))
              _);
      [simpl; lia | reflexivity].
  - vm_compute. reflexivity.
Defined.

(** ** Checks on concrete values *)

Example format_d_6 : Fmt.format_d 2 6 = " 6".
Proof. reflexivity. Qed.

Example format_d_negative : Fmt.format_d 4 (-1) = "  -1".
Proof. reflexivity. Qed.

Example format_d_overflows_width : Fmt.format_d 2 123 = "123".
Proof. reflexivity. Qed.

Example format_s_wells : Fmt.format_s 20 "WELLS" = "WELLS               ".
Proof. reflexivity. Qed.

Example format_f_hnoflo :
  Fmt.format_f 16 6 (float_of_int (-9999)) = "    -9999.000000".
Proof. vm_compute. reflexivity. Qed.

Example format_f_porosity : Fmt.format_f 16 6 float_0_30 = "        0.300000".
Proof. vm_compute. reflexivity. Qed.

Example format_f_tie_to_even : Fmt.fixed_repr 0 (PyFinite false 5 (-1)) = "2".
Proof. vm_compute. reflexivity. Qed.

Example format_f_negative_zero :
  Fmt.fixed_repr 6 (PyFinite true 0 0) = "-0.000000".
Proof. vm_compute. reflexivity. Qed.

Example bud_label_str_is_subscripted_by_character :
  getitem_bud_label (BudStr "WELLS") 1 = Ok "E".
Proof. reflexivity. Qed.

Example def_iface_int_is_not_subscriptable :
  is_ok (getitem_def_iface (IfaceInt 6) 0) = false.
Proof. reflexivity. Qed.

Example parse_40I2 : Helper.parse_fmtin "(40I2)" = Some (40, 2)%nat.
Proof. reflexivity. Qed.

(** ** Field widths *)

Lemma string_length_app (a b : string) :
  String.length (a +:+ b) = (String.length a + String.length b)%nat.
Proof.
  induction a as [|x a IH]; [reflexivity |].
  change (S (String.length (a +:+ b))
          = S (String.length a + String.length b)).
  now rewrite IH.
Qed.

Lemma spaces_length n : String.length (Fmt.spaces n) = n.
Proof. induction n as [|n IH]; [reflexivity | cbn; now rewrite IH]. Qed.

(** A field is as wide as asked for, or as wide as its content when that
    is longer: nothing is truncated. *)
Lemma format_s_length w s :
  String.length (Fmt.format_s w s) = Nat.max w (String.length s).
Proof.
  unfold Fmt.format_s, Fmt.ljust.
  rewrite string_length_app, spaces_length. lia.
Qed.

(** The same for an integer field: digits beyond the width are kept. *)
Lemma format_d_length w n :
  String.length (Fmt.format_d w n)
  = Nat.max w (String.length (Fmt.repr_int n)).
Proof.
  unfold Fmt.format_d, Fmt.rjust.
  rewrite string_length_app, spaces_length. lia.
Qed.

(** ** What a call does to the rest of the store *)

Section Store.

Context `{ArrayFormatter}.

Lemma read_file_opened_ne p path t fs :
  p <> path -> read_file p (opened path t fs) = read_file p fs.
Proof. intros N. unfold read_file, opened; simpl. now rewrite lookup_insert_ne. Qed.

Lemma read_file_closed_ne p path t fs :
  p <> path -> read_file p (closed path t fs) = read_file p fs.
Proof. intros N. unfold read_file, closed; simpl. now rewrite lookup_insert_ne. Qed.

(** The store after a call is [opened] or [closed] on the store before. *)
Lemma write_file_store parent self fs :
  exists t,
    snd (write_file parent self fs)
    = (if is_ok (fst (write_file parent self fs))
       then closed (fn_path self) t fs
       else opened (fn_path self) t fs).
Proof.
  rewrite write_file_run. cbv zeta.
  destruct (snd (faces_run self)) as [[]|e].
  - destruct (probe_flow_package parent self (nlay_of parent)) as [[lc|]|e];
      eexists; reflexivity.
  - eexists; reflexivity.
Qed.

(** Frame.  A call changes no file but the one at [fn_path], whether it
    succeeds or raises; it changes no handle but the one it allocates;
    and it allocates exactly one descriptor. *)
Theorem write_file_frame parent self fs :
  (forall p, p <> fn_path self ->
     read_file p (snd (write_file parent self fs)) = read_file p fs) /\
  (forall fd, fd <> fs_next fs ->
     fs_handles (snd (write_file parent self fs)) !! fd
     = fs_handles fs !! fd) /\
  fs_next (snd (write_file parent self fs)) = S (fs_next fs).
Proof.
  destruct (write_file_store parent self fs) as [t ->].
  destruct (is_ok (fst (write_file parent self fs))).
  - split; [| split; [| reflexivity]].
    + intros p N. now apply read_file_closed_ne.
    + intros fd N. unfold closed; simpl.
      rewrite lookup_delete_ne, lookup_insert_ne by congruence. reflexivity.
  - split; [| split; [| reflexivity]].
    + intros p N. now apply read_file_opened_ne.
    + intros fd N. unfold opened; simpl.
      now rewrite lookup_insert_ne by congruence.
Qed.

(** Overwriting.  The outcome of a call and the file it leaves do not
    depend on the store it starts from: what the file held before is
    discarded, so a second call rewrites the same file. *)
Theorem write_file_overwrites parent self fs1 fs2 :
  fst (write_file parent self fs1) = fst (write_file parent self fs2) /\
  read_file (fn_path self) (snd (write_file parent self fs1))
  = read_file (fn_path self) (snd (write_file parent self fs2)).
Proof.
  split.
  - now rewrite !write_file_result.
  - now rewrite !write_file_content.
Qed.

(** A successful call on a store whose next descriptor is free leaves the
    open handles exactly as they were. *)
Theorem write_file_success_restores_handles parent self fs :
  fs_handles fs !! fs_next fs = None ->
  is_ok (fst (write_file parent self fs)) = true ->
  fs_handles (snd (write_file parent self fs)) = fs_handles fs.
Proof.
  intros Free S.
  destruct (write_file_store parent self fs) as [t ->]. rewrite S.
  unfold closed; simpl. rewrite delete_insert_eq. now apply delete_id.
Qed.

(** At write time the model matters only through its number of layers
    and the answers to the three probes: rows, columns, stress periods,
    the DIS package and any other package are not looked at. *)
Theorem write_file_reads_only_layers_and_probes parent1 parent2 self fs :
  nlay_of parent1 = nlay_of parent2 ->
  get_package (mf parent1) "BCF6" = get_package (mf parent2) "BCF6" ->
  get_package (mf parent1) "LPF" = get_package (mf parent2) "LPF" ->
  get_package (mf parent1) "UPW" = get_package (mf parent2) "UPW" ->
  write_file parent1 self fs = write_file parent2 self fs.
Proof.
  intros N B L U. rewrite !write_file_run.
  assert (P : probe_flow_package parent1 self (nlay_of parent1)
              = probe_flow_package parent2 self (nlay_of parent2)).
  { unfold probe_flow_package. now rewrite N, B, L, U. }
  now rewrite P.
Qed.

End Store.

Lemma write_file_frame_witness :
  exists self,
    built model_bare default_args = Some self /\
    "notes.txt" <> fn_path self /\
    read_file "notes.txt" (snd (write_file model_bare self fs_busy))
    = Some "keep" /\
    fs_handles (snd (write_file model_bare self fs_busy)) !! 0%nat
    = Some "notes.txt".
Proof.
  eexists. split; [reflexivity |]. split; [discriminate |].
  split.
  - refine (eq_trans
              (proj1 (write_file_frame model_bare _ fs_busy) "notes.txt" _) _);
      [discriminate | reflexivity].
  - refine (eq_trans
              (proj1 (proj2 (write_file_frame model_bare _ fs_busy)) 0%nat _)
              _);
      [discriminate | reflexivity].
Defined.

Lemma write_file_success_restores_handles_witness :
  exists self,
    built model_lpf default_args = Some self /\
    fs_handles fs_busy !! fs_next fs_busy = None /\
    is_ok (fst (write_file model_lpf self fs_busy)) = true /\
    fs_handles (snd (write_file model_lpf self fs_busy)) = fs_handles fs_busy.
Proof.
  eexists. split; [reflexivity |]. split; [reflexivity |].
  split; [reflexivity |].
  apply (write_file_success_restores_handles model_lpf _ fs_busy);
    reflexivity.
Defined.

Lemma write_file_reads_only_layers_and_probes_witness :
  exists self,
    built model_lpf args_faces = Some self /\
    nlay_of model_lpf = nlay_of model_regrid /\
    nrow_ncol_nlay_nper (mf model_lpf) <> nrow_ncol_nlay_nper (mf model_regrid) /\
    get_package (mf model_lpf) "DIS" <> get_package (mf model_regrid) "DIS" /\
    write_file model_lpf self empty_fs = write_file model_regrid self empty_fs.
Proof.
  eexists. split; [reflexivity |]. split; [reflexivity |].
  split; [discriminate |]. split; [discriminate |].
  apply write_file_reads_only_layers_and_probes; reflexivity.
Defined.

(** ** The face loop on sequences that do not fit *)

Section Loop.

Context `{ArrayFormatter}.

Lemma string_get_chars s : forall i,
  match String.get i s with
  | Some c => Some (String c EmptyString)
  | None => None
  end = chars_of_string s !! i.
Proof.
  induction s as [|c s IH]; intros [|i]; cbn; try reflexivity. apply IH.
Qed.

Lemma length_chars_of_string s : length (chars_of_string s) = String.length s.
Proof. induction s as [|c s IH]; cbn; [reflexivity | now rewrite IH]. Qed.

Lemma getitem_bud_label_ok b i :
  is_ok (getitem_bud_label b i) = (i <? bud_label_len b)%nat.
Proof.
  destruct b as [|s|l]; cbn.
  - reflexivity.
  - pose proof (string_get_chars s i) as E.
    rewrite <- length_chars_of_string.
    destruct (String.get i s); symmetry in E.
    + apply lookup_lt_Some in E. symmetry. now apply Nat.ltb_lt.
    + apply lookup_ge_None in E. symmetry. apply Nat.ltb_ge. lia.
  - destruct (l !! i) eqn:E.
    + apply lookup_lt_Some in E. symmetry. now apply Nat.ltb_lt.
    + apply lookup_ge_None in E. symmetry. apply Nat.ltb_ge. lia.
Qed.

Lemma getitem_def_iface_ok d i :
  is_ok (getitem_def_iface d i) = (i <? def_iface_len d)%nat.
Proof.
  destruct d as [|n|l]; cbn; try reflexivity.
  destruct (l !! i) eqn:E.
  - apply lookup_lt_Some in E. symmetry. now apply Nat.ltb_lt.
  - apply lookup_ge_None in E. symmetry. apply Nat.ltb_ge. lia.
Qed.

Lemma entries_run_ok b d idx :
  is_ok (snd (entries_run b d idx))
  = forallb (fun i => (i <? bud_label_len b)%nat && (i <? def_iface_len d)%nat)
            idx.
Proof.
  induction idx as [|i r IH]; [reflexivity |].
  cbn [entries_run forallb].
  rewrite <- getitem_bud_label_ok, <- getitem_def_iface_ok, <- IH.
  destruct (getitem_bud_label b i) as [l|e]; [| reflexivity].
  destruct (getitem_def_iface d i) as [c|e]; reflexivity.
Qed.

Lemma forallb_below a b n :
  forallb (fun i => (i <? a)%nat && (i <? b)%nat) (seq 0 n)
  = ((n <=? a)%nat && (n <=? b)%nat).
Proof.
  induction n as [|n IH]; [reflexivity |].
  rewrite seq_S, forallb_app, IH. cbn [forallb Nat.add].
  apply Bool.eq_iff_eq_true.
  rewrite !andb_true_iff, !Nat.leb_le, !Nat.ltb_lt. lia.
Qed.

Lemma faces_run_ok self :
  is_ok (snd (faces_run self))
  = ((Z.to_nat (def_face_ct self) <=? bud_label_len (bud_label self))%nat
     && (Z.to_nat (def_face_ct self) <=? def_iface_len (def_iface self))%nat).
Proof.
  unfold faces_run, range.
  destruct (0 <? def_face_ct self) eqn:P.
  - now rewrite entries_run_ok, forallb_below.
  - apply Z.ltb_ge in P.
    replace (Z.to_nat (def_face_ct self)) with 0%nat by lia. reflexivity.
Qed.

(** What a successful call presupposes: both face sequences can be
    subscripted up to [def_face_ct] (no demand when it is not positive),
    and the first registered flow package among BCF6, LPF, UPW holds a
    layer array of exactly [nlay] values. *)
Theorem write_file_succeeds_only_if parent self fs :
  is_ok (fst (write_file parent self fs)) = true ->
  (Z.to_nat (def_face_ct self) <= bud_label_len (bud_label self))%nat /\
  (Z.to_nat (def_face_ct self) <= def_iface_len (def_iface self))%nat /\
  exists v, flow_layer_array (mf parent) v /\ length v = nlay_of parent.
Proof.
  rewrite write_file_result. intros S.
  pose proof (faces_run_ok self) as F.
  destruct (snd (faces_run self)) as [[]|e]; [| discriminate].
  cbn [is_ok] in F. symmetry in F.
  apply andb_true_iff in F as [Fb Fd].
  apply Nat.leb_le in Fb, Fd. split; [exact Fb |]. split; [exact Fd |].
  destruct (probe_flow_package parent self (nlay_of parent))
    as [[lc|]|e] eqn:P; try discriminate.
  destruct (probe_some_inv _ _ _ _ P) as (v & A & L & _). eauto.
Qed.

Lemma range_pos n : 0 < n -> range n = 0%nat :: seq 1 (Z.to_nat n - 1).
Proof.
  intros P. unfold range.
  destruct (Z.to_nat n) as [|k] eqn:E; [lia |].
  cbn. now rewrite Nat.sub_0_r.
Qed.

(** Labels left at [None] with a positive count: the count line is the
    last thing written, then the first subscript raises [TypeError]. *)
Theorem write_file_labels_none parent self fs :
  0 < def_face_ct self ->
  bud_label self = BudNone ->
  fst (write_file parent self fs)
  = Raise (TypeError "'NoneType' object is not subscriptable") /\
  read_file (fn_path self) (snd (write_file parent self fs))
  = Some (prefix_text self).
Proof.
  intros P B.
  assert (F : faces_run self
              = ("", Raise (TypeError "'NoneType' object is not subscriptable"))).
  { unfold faces_run. rewrite B, range_pos by exact P.
    apply Z.ltb_lt in P as ->. reflexivity. }
  split.
  - now rewrite write_file_result, F.
  - rewrite write_file_content. unfold tail_text. rewrite F. cbn [fst snd].
    now rewrite !string_app_nil_r.
Qed.

(** Codes that are not a list ([None] or a single [int]) with a positive
    count and a first label: the first label line is written, then the
    subscript of [def_iface] raises [TypeError], leaving a label without
    its code at the end of the file. *)
Theorem write_file_codes_not_a_list parent self fs l :
  0 < def_face_ct self ->
  getitem_bud_label (bud_label self) 0 = Ok l ->
  is_iface_list (def_iface self) = false ->
  (exists msg, fst (write_file parent self fs) = Raise (TypeError msg)) /\
  read_file (fn_path self) (snd (write_file parent self fs))
  = Some (prefix_text self +:+ Fmt.format_s 20 l +:+ Fmt.nl).
Proof.
  intros P L D.
  assert (F : exists msg, faces_run self
              = (Fmt.format_s 20 l +:+ Fmt.nl, Raise (TypeError msg))).
  { unfold faces_run. rewrite range_pos by exact P.
    apply Z.ltb_lt in P as ->. cbn [entries_run]. rewrite L.
    destruct (def_iface self); [| | discriminate]; eexists; reflexivity. }
  destruct F as [msg F]. split.
  - exists msg. now rewrite write_file_result, F.
  - rewrite write_file_content. unfold tail_text. rewrite F. cbn [fst snd].
    now rewrite !string_app_nil_r.
Qed.

Lemma entries_run_shift l ls c cs n : forall start,
  entries_run (BudList (l :: ls)) (IfaceList (c :: cs)) (seq (S start) n)
  = entries_run (BudList ls) (IfaceList cs) (seq start n).
Proof.
  induction n as [|n IH]; intros start; [reflexivity |].
  cbn [seq entries_run getitem_bud_label getitem_def_iface].
  change ((l :: ls) !! S start) with (ls !! start).
  change ((c :: cs) !! S start) with (cs !! start).
  now rewrite IH.
Qed.

Lemma entries_run_short_labels ls : forall cs n,
  (length ls < n)%nat -> (length ls <= length cs)%nat ->
  entries_run (BudList ls) (IfaceList cs) (seq 0 n)
  = (entries_text ls cs, Raise (IndexError "list index out of range")).
Proof.
  induction ls as [|l ls IH]; intros cs [|n] Hn Hc; cbn in Hn; try lia.
  - reflexivity.
  - destruct cs as [|c cs]; cbn in Hc; [lia |].
    cbn [seq entries_run getitem_bud_label getitem_def_iface].
    change ((l :: ls) !! 0%nat) with (Some l).
    change ((c :: cs) !! 0%nat) with (Some c). cbv iota.
    rewrite entries_run_shift, IH by lia. reflexivity.
Qed.

Lemma entries_run_short_codes cs : forall ls n l,
  (length cs < n)%nat -> ls !! length cs = Some l ->
  entries_run (BudList ls) (IfaceList cs) (seq 0 n)
  = (entries_text ls cs +:+ Fmt.format_s 20 l +:+ Fmt.nl,
     Raise (IndexError "list index out of range")).
Proof.
  induction cs as [|c cs IH]; intros [|l0 ls] [|n] l Hn Hl;
    cbn in Hn, Hl; try lia; try discriminate.
  - injection Hl as ->. reflexivity.
  - cbn [seq entries_run getitem_bud_label getitem_def_iface].
    change ((l0 :: ls) !! 0%nat) with (Some l0).
    change ((c :: cs) !! 0%nat) with (Some c). cbv iota.
    rewrite entries_run_shift, (IH ls n l) by (lia || assumption).
    cbn [fst snd entries_text]. now rewrite string_app_assoc.
Qed.

(** Fewer labels than [def_face_ct] (and no fewer codes than labels):
    every label is written with its code, then the subscript of the
    missing label raises [IndexError]. *)
Theorem write_file_short_labels parent self fs ls cs :
  bud_label self = BudList ls ->
  def_iface self = IfaceList cs ->
  (length ls < Z.to_nat (def_face_ct self))%nat ->
  (length ls <= length cs)%nat ->
  fst (write_file parent self fs)
  = Raise (IndexError "list index out of range") /\
  read_file (fn_path self) (snd (write_file parent self fs))
  = Some (prefix_text self +:+ entries_text ls cs).
Proof.
  intros B D Hn Hc.
  assert (F : faces_run self
              = (entries_text ls cs,
                 Raise (IndexError "list index out of range"))).
  { unfold faces_run, range. rewrite B, D.
    assert (P : 0 < def_face_ct self) by lia.
    apply Z.ltb_lt in P as ->. now apply entries_run_short_labels. }
  split.
  - now rewrite write_file_result, F.
  - rewrite write_file_content. unfold tail_text. rewrite F. cbn [fst snd].
    now rewrite !string_app_nil_r.
Qed.

(** Fewer codes than [def_face_ct] and than labels: every code is written
    after its label, then one more label line, then the subscript of the
    missing code raises [IndexError]. *)
Theorem write_file_short_codes parent self fs ls cs l :
  bud_label self = BudList ls ->
  def_iface self = IfaceList cs ->
  (length cs < Z.to_nat (def_face_ct self))%nat ->
  ls !! length cs = Some l ->
  fst (write_file parent self fs)
  = Raise (IndexError "list index out of range") /\
  read_file (fn_path self) (snd (write_file parent self fs))
  = Some (prefix_text self +:+ entries_text ls cs +:+
          Fmt.format_s 20 l +:+ Fmt.nl).
Proof.
  intros B D Hn Hl.
  assert (F : faces_run self
              = (entries_text ls cs +:+ Fmt.format_s 20 l +:+ Fmt.nl,
                 Raise (IndexError "list index out of range"))).
  { unfold faces_run, range. rewrite B, D.
    assert (P : 0 < def_face_ct self) by lia.
    apply Z.ltb_lt in P as ->. now apply entries_run_short_codes. }
  split.
  - now rewrite write_file_result, F.
  - rewrite write_file_content. unfold tail_text. rewrite F. cbn [fst snd].
    now rewrite !string_app_nil_r.
Qed.

End Loop.

Lemma write_file_labels_none_witness :
  exists self,
    built model_lpf (faces_args 1 BudNone IfaceNone) = Some self /\
    0 < def_face_ct self /\
    bud_label self = BudNone /\
    fst (write_file model_lpf self empty_fs)
    = Raise (TypeError "'NoneType' object is not subscriptable").
Proof.
  eexists. split; [reflexivity |]. split; [reflexivity |].
  split; [reflexivity |].
  refine (proj1 (write_file_labels_none model_lpf _ empty_fs _ _));
    reflexivity.
Defined.

Lemma write_file_codes_not_a_list_witness :
  exists self,
    built model_lpf (faces_args 1 (BudList ["WELLS"]) (IfaceInt 6)) = Some self /\
    0 < def_face_ct self /\
    getitem_bud_label (bud_label self) 0 = Ok "WELLS" /\
    is_iface_list (def_iface self) = false /\
    read_file (fn_path self) (snd (write_file model_lpf self empty_fs))
    = Some (prefix_text self +:+ Fmt.format_s 20 "WELLS" +:+ Fmt.nl).
Proof.
  eexists. split; [reflexivity |]. do 3 (split; [reflexivity |]).
  refine (proj2 (write_file_codes_not_a_list model_lpf _ empty_fs "WELLS"
                   _ _ _)); reflexivity.
Defined.

Lemma write_file_short_labels_witness :
  exists self,
    built model_lpf (faces_args 3 (BudList ["RECHARGE"; "WELLS"])
                       (IfaceList [6; 1; 2])) = Some self /\
    (length ["RECHARGE"; "WELLS"] < Z.to_nat (def_face_ct self))%nat /\
    fst (write_file model_lpf self empty_fs)
    = Raise (IndexError "list index out of range") /\
    read_file (fn_path self) (snd (write_file model_lpf self empty_fs))
    = Some (prefix_text self +:+
            entries_text ["RECHARGE"; "WELLS"] [6; 1; 2]).
Proof.
  eexists. split; [reflexivity |]. split; [simpl; lia |].
  apply (write_file_short_labels model_lpf _ empty_fs
           ["RECHARGE"; "WELLS"] [6; 1; 2]);
    try reflexivity; simpl; lia.
Defined.

Lemma write_file_short_codes_witness :
  exists self,
    built model_lpf (faces_args 2 (BudList ["RECHARGE"; "WELLS"])
                       (IfaceList [6])) = Some self /\
    (length [6] < Z.to_nat (def_face_ct self))%nat /\
    ["RECHARGE"; "WELLS"] !! length [6] = Some "WELLS" /\
    fst (write_file model_lpf self empty_fs)
    = Raise (IndexError "list index out of range") /\
    split_lines <$>
      read_file (fn_path self) (snd (write_file model_lpf self empty_fs))
    = Some ["## MPBAS for Modpath, generated by Flopy."; "##";
            "    -9999.000000     -8888.000000"; "   2";
            "RECHARGE            "; " 6"; "WELLS               "].
Proof.
  eexists. split; [reflexivity |]. split; [simpl; lia |].
  split; [reflexivity |].
  match goal with
  | |- context [write_file model_lpf ?s empty_fs] =>
      pose proof (write_file_short_codes model_lpf s empty_fs
                    ["RECHARGE"; "WELLS"] [6] "WELLS" eq_refl eq_refl)
        as W
  end.
  destruct W as [W1 W2]; [simpl; lia | reflexivity |].
  split; [exact W1 |]. rewrite W2. vm_compute. reflexivity.
Defined.

(** ** String labels, integral head values, the banner *)

Section Texts.

Context `{ArrayFormatter}.

Lemma entries_run_str s d idx :
  fst (entries_run (BudStr s) d idx)
  = fst (entries_run (BudList (chars_of_string s)) d idx) /\
  is_ok (snd (entries_run (BudStr s) d idx))
  = is_ok (snd (entries_run (BudList (chars_of_string s)) d idx)).
Proof.
  induction idx as [|i r [IH1 IH2]]; [split; reflexivity |].
  cbn [entries_run getitem_bud_label].
  pose proof (string_get_chars s i) as E.
  destruct (String.get i s) as [c|]; rewrite <- E.
  - destruct (getitem_def_iface d i) as [x|e]; [| split; reflexivity].
    cbn [fst snd]. now rewrite IH1, IH2.
  - split; reflexivity.
Qed.

Lemma tail_text_by_ok parent self :
  tail_text parent self
  = if is_ok (snd (faces_run self))
    then match probe_flow_package parent self (nlay_of parent) with
         | Ok (Some lc) => sections_text lc self
         | _ => ""
         end
    else "".
Proof. unfold tail_text. now destruct (snd (faces_run self)). Qed.

(** A [bud_label] given as one string is subscripted character by
    character: the file is the one that the list of its characters
    gives, and the call succeeds in the same cases. *)
Theorem write_file_str_label_by_character parent self fs s :
  bud_label self = BudStr s ->
  read_file (fn_path self) (snd (write_file parent self fs))
  = read_file (fn_path self)
      (snd (write_file parent
              (with_bud_label (BudList (chars_of_string s)) self) fs)) /\
  is_ok (fst (write_file parent self fs))
  = is_ok (fst (write_file parent
                  (with_bud_label (BudList (chars_of_string s)) self) fs)).
Proof.
  intros B.
  set (self' := with_bud_label (BudList (chars_of_string s)) self).
  assert (F : fst (faces_run self) = fst (faces_run self') /\
              is_ok (snd (faces_run self)) = is_ok (snd (faces_run self'))).
  { unfold faces_run, self'. cbn [def_face_ct bud_label def_iface with_bud_label].
    rewrite B. destruct (0 <? def_face_ct self); [| split; reflexivity].
    apply entries_run_str. }
  destruct F as [F1 F2]. split.
  - change (fn_path self) with (fn_path self') at 2.
    rewrite !write_file_content, !tail_text_by_ok, <- F1, <- F2. reflexivity.
  - rewrite !write_file_result.
    change (probe_flow_package parent self' (nlay_of parent))
      with (probe_flow_package parent self (nlay_of parent)).
    destruct (snd (faces_run self)), (snd (faces_run self'));
      cbn in F2; try discriminate; reflexivity.
Qed.

Lemma fixed_repr_integral (n : Z) :
  Fmt.fixed_repr 6 (float_of_int n) = Fmt.repr_int n +:+ ".000000".
Proof.
  unfold Fmt.fixed_repr, float_of_int, Fmt.scaled_magnitude.
  change (0 <=? 0) with true. cbv iota.
  change (10 ^ Z.of_nat 6) with 1000000. change (2 ^ 0) with 1.
  rewrite Z.mul_1_r, Z.div_mul, Z.mod_mul by lia.
  change (Fmt.zfill 6 (Fmt.repr_int 0)) with "000000".
  destruct n as [|p|p]; reflexivity.
Qed.

(** Head values that are whole numbers are written with their digits,
    a point and six zeros, each right-aligned in 16 columns. *)
Theorem heads_text_integral self a b :
  hnoflo self = float_of_int a ->
  hdry self = float_of_int b ->
  heads_text self
  = Fmt.rjust 16 (Fmt.repr_int a +:+ ".000000") +:+ " " +:+
    Fmt.rjust 16 (Fmt.repr_int b +:+ ".000000") +:+ Fmt.nl.
Proof.
  intros A B. unfold heads_text, Fmt.format_f.
  now rewrite A, B, !fixed_repr_integral.
Qed.

Lemma banner_lines (rest : string) :
  split_lines
    (("#" +:+ "# MPBAS for Modpath, generated by Flopy." +:+ Fmt.nl +:+
      "#" +:+ "#" +:+ Fmt.nl) +:+ rest)
  = "## MPBAS for Modpath, generated by Flopy." :: "##" :: split_lines rest.
Proof. vm_compute. reflexivity. Qed.

(** Whatever the arguments, the model and the outcome of the call, the
    file of a constructed package starts with the two banner lines, each
    with the [#] of the format in front of the [#] of the heading. *)
Theorem write_file_banner_first model a parent fs :
  exists self content,
    __init__ model a = Ok (self, add_package model self) /\
    read_file (fn_path self) (snd (write_file parent self fs)) = Some content /\
    take 2 (split_lines content)
    = ["## MPBAS for Modpath, generated by Flopy."; "##"].
Proof.
  destruct (init_ok model a) as (self & E & _ & _ & _ & _ & _ & H1 & H2).
  exists self. eexists. split; [exact E |].
  split; [apply write_file_content |].
  unfold prefix_text. rewrite (string_app_assoc (header_text self)).
  unfold header_text. rewrite H1, H2, banner_lines. reflexivity.
Qed.

End Texts.

Lemma write_file_str_label_by_character_witness :
  exists self,
    built model_lpf (faces_args 2 (BudStr "WELLS") (IfaceList [6; 1]))
    = Some self /\
    bud_label self = BudStr "WELLS" /\
    split_lines <$>
      read_file (fn_path self) (snd (write_file model_lpf self empty_fs))
    = split_lines <$>
      read_file (fn_path self)
        (snd (write_file model_lpf
                (with_bud_label (BudList ["W"; "E"; "L"; "L"; "S"]) self)
                empty_fs)) /\
    take 4 <$> (drop 4 <$> (split_lines <$>
      read_file (fn_path self) (snd (write_file model_lpf self empty_fs))))
    = Some ["W                   "; " 6"; "E                   "; " 1"].
Proof.
  eexists. split; [reflexivity |]. split; [reflexivity |].
  split.
  - refine (f_equal (fmap split_lines)
              (proj1 (write_file_str_label_by_character model_lpf _ empty_fs
                        "WELLS" _))); reflexivity.
  - vm_compute. reflexivity.
Defined.

Lemma heads_text_integral_witness :
  exists self,
    built model_lpf default_args = Some self /\
    hnoflo self = float_of_int (-9999) /\
    hdry self = float_of_int (-8888) /\
    heads_text self
    = "    -9999.000000     -8888.000000" +:+ Fmt.nl.
Proof.
  eexists. split; [reflexivity |]. do 2 (split; [reflexivity |]).
  refine (eq_trans (heads_text_integral _ (-9999) (-8888) _ _) _);
    reflexivity.
Defined.

(** ** Lines and fields *)

Section Lines.

Context `{ArrayFormatter}.

Lemma rev_app_rev_app a : forall b c,
  String.rev_app (String.rev_app a b) c = String.rev_app b (a +:+ c).
Proof.
  induction a as [|x a IH]; intros b c; [reflexivity |].
  cbn [String.rev_app]. now rewrite IH.
Qed.

Lemma split_lines_aux_line a : forall cur rest,
  no_newline a = true ->
  split_lines_aux cur (a +:+ Fmt.nl +:+ rest)
  = String.rev (String.rev_app a cur) :: split_lines_aux "" rest.
Proof.
  induction a as [|x a IH]; intros cur rest N.
  - reflexivity.
  - cbn [no_newline] in N. apply andb_true_iff in N as [Nx Na].
    apply negb_true_iff in Nx.
    change (String x a +:+ Fmt.nl +:+ rest)
      with (String x (a +:+ Fmt.nl +:+ rest)).
    cbn [split_lines_aux]. rewrite Nx. now rewrite IH.
Qed.

(** A text without newline followed by a newline is one line. *)
Lemma split_lines_line a rest :
  no_newline a = true ->
  split_lines (a +:+ Fmt.nl +:+ rest) = a :: split_lines rest.
Proof.
  intros N. unfold split_lines. rewrite split_lines_aux_line by exact N.
  unfold String.rev. rewrite rev_app_rev_app. cbn [String.rev_app].
  now rewrite string_app_nil_r.
Qed.

Lemma split_lines_aux_terminated a : forall cur rest,
  split_lines_aux cur ((a +:+ Fmt.nl) +:+ rest)
  = (split_lines_aux cur (a +:+ Fmt.nl) ++ split_lines rest)%list.
Proof.
  induction a as [|x a IH]; intros cur rest.
  - reflexivity.
  - change ((String x a +:+ Fmt.nl) +:+ rest)
      with (String x ((a +:+ Fmt.nl) +:+ rest)).
    change (String x a +:+ Fmt.nl) with (String x (a +:+ Fmt.nl)).
    cbn [split_lines_aux].
    destruct (Ascii.eqb x (ascii_of_nat 10)); rewrite IH; reflexivity.
Qed.

Lemma no_newline_app a b :
  no_newline (a +:+ b) = no_newline a && no_newline b.
Proof.
  induction a as [|x a IH]; [reflexivity |].
  change (String x a +:+ b) with (String x (a +:+ b)).
  cbn [no_newline]. now rewrite IH, andb_assoc.
Qed.

Lemma no_newline_spaces n : no_newline (Fmt.spaces n) = true.
Proof. induction n as [|n IH]; [reflexivity | exact IH]. Qed.

Lemma no_newline_uint d : no_newline (NilEmpty.string_of_uint d) = true.
Proof. induction d; [reflexivity | exact IHd ..]. Qed.

Lemma no_newline_repr_int n : no_newline (Fmt.repr_int n) = true.
Proof.
  unfold Fmt.repr_int, NilZero.string_of_int, NilZero.string_of_uint.
  destruct (Z.to_int n) as [d|d]; destruct d;
    try reflexivity; apply (no_newline_uint _).
Qed.

Lemma no_newline_format_d w n : no_newline (Fmt.format_d w n) = true.
Proof.
  unfold Fmt.format_d, Fmt.rjust.
  now rewrite no_newline_app, no_newline_spaces, no_newline_repr_int.
Qed.

Lemma no_newline_format_s w s :
  no_newline (Fmt.format_s w s) = no_newline s.
Proof.
  unfold Fmt.format_s, Fmt.ljust.
  now rewrite no_newline_app, no_newline_spaces, andb_true_r.
Qed.

Lemma split_lines_entries ls : forall cs rest,
  forallb no_newline ls = true ->
  split_lines (entries_text ls cs +:+ rest)
  = (entry_lines ls cs ++ split_lines rest)%list.
Proof.
  induction ls as [|l ls IH]; intros cs rest N; [reflexivity |].
  destruct cs as [|c cs]; [reflexivity |].
  cbn [forallb] in N. apply andb_true_iff in N as [Nl Nls].
  cbn [entries_text entry_lines]. unfold entry_text.
  rewrite !string_app_assoc.
  rewrite split_lines_line by now rewrite no_newline_format_s.
  rewrite split_lines_line by apply no_newline_format_d.
  now rewrite IH.
Qed.

Lemma length_entry_lines ls : forall cs,
  length (entry_lines ls cs) = (2 * Nat.min (length ls) (length cs))%nat.
Proof.
  induction ls as [|l ls IH]; intros [|c cs]; cbn [entry_lines length Nat.min];
    try lia.
  rewrite IH. lia.
Qed.

(** Two lines an entry.  With [def_face_ct > 0], sequences that are long
    enough and labels without newline, the lines of the file are those of
    the part before the entries, then for each entry its label field and
    its code field, [2 * def_face_ct] lines in all, then the lines of
    what follows. *)
Theorem face_entries_two_lines_each parent self fs ls cs :
  0 < def_face_ct self ->
  bud_label self = BudList ls ->
  def_iface self = IfaceList cs ->
  (Z.to_nat (def_face_ct self) <= length ls)%nat ->
  (Z.to_nat (def_face_ct self) <= length cs)%nat ->
  forallb no_newline (take (Z.to_nat (def_face_ct self)) ls) = true ->
  exists content,
    read_file (fn_path self) (snd (write_file parent self fs)) = Some content /\
    split_lines content
    = (split_lines (prefix_text self) ++
       entry_lines (take (Z.to_nat (def_face_ct self)) ls)
                   (take (Z.to_nat (def_face_ct self)) cs) ++
       split_lines (tail_text parent self))%list /\
    length (entry_lines (take (Z.to_nat (def_face_ct self)) ls)
                        (take (Z.to_nat (def_face_ct self)) cs))
    = (2 * Z.to_nat (def_face_ct self))%nat.
Proof.
  intros P B D Hl Hc N.
  assert (F : fst (faces_run self)
              = entries_text (take (Z.to_nat (def_face_ct self)) ls)
                             (take (Z.to_nat (def_face_ct self)) cs)).
  { unfold faces_run, range. rewrite B, D.
    apply Z.ltb_lt in P as ->.
    now rewrite entries_run_lists by (simpl; lia). }
  eexists. split; [apply write_file_content |]. split.
  - rewrite F. unfold prefix_text at 1, face_count_text.
    assert (E : forall r,
              (header_text self +:+ heads_text self +:+
               Fmt.format_d 4 (def_face_ct self) +:+ Fmt.nl) +:+ r
              = ((header_text self +:+ heads_text self +:+
                  Fmt.format_d 4 (def_face_ct self)) +:+ Fmt.nl) +:+ r).
    { intros r. now rewrite !string_app_assoc. }
    rewrite E. unfold split_lines at 1.
    rewrite split_lines_aux_terminated.
    rewrite split_lines_entries by exact N.
    unfold prefix_text, face_count_text, split_lines at 3.
    now rewrite !string_app_assoc.
  - rewrite length_entry_lines, !length_take. lia.
Qed.

Lemma starts_nonblank_repr_int n : starts_nonblank (Fmt.repr_int n) = true.
Proof.
  unfold Fmt.repr_int, NilZero.string_of_int, NilZero.string_of_uint.
  destruct (Z.to_int n) as [d|d]; destruct d; reflexivity.
Qed.

Lemma repr_int_inj n m : Fmt.repr_int n = Fmt.repr_int m -> n = m.
Proof.
  unfold Fmt.repr_int. intros E.
  apply (f_equal NilZero.int_of_string) in E.
  assert (R : forall z, NilZero.int_of_string
                          (NilZero.string_of_int (Z.to_int z))
                        = Some (Z.to_int z)).
  { intros [|p|p]; [reflexivity | |];
      apply NilZero.isi; cbn; intros [= E'];
      now apply (Unsigned.to_uint_nonnil p). }
  rewrite !R in E. injection E as E. now apply DecimalZ.to_int_inj.
Qed.

Lemma spaces_app_inj a : forall b s t,
  starts_nonblank s = true -> starts_nonblank t = true ->
  Fmt.spaces a +:+ s = Fmt.spaces b +:+ t -> s = t.
Proof.
  induction a as [|a IH]; intros [|b] s t Ns Nt E.
  - exact E.
  - change (s = String " " (Fmt.spaces b +:+ t)) in E. subst s. discriminate.
  - change (String " " (Fmt.spaces a +:+ s) = t) in E. subst t. discriminate.
  - change (String " " (Fmt.spaces a +:+ s)
            = String " " (Fmt.spaces b +:+ t)) in E.
    injection E as E. now apply (IH b).
Qed.

(** An integer field determines its value: two integers with the same
    field, whatever the widths, are equal.  So the count line and the
    code lines can be read back. *)
Theorem format_d_inj w1 w2 n m :
  Fmt.format_d w1 n = Fmt.format_d w2 m -> n = m.
Proof.
  unfold Fmt.format_d, Fmt.rjust. intros E.
  apply repr_int_inj.
  exact (spaces_app_inj _ _ _ _ (starts_nonblank_repr_int n)
           (starts_nonblank_repr_int m) E).
Qed.

End Lines.

Lemma face_entries_two_lines_each_witness :
  exists self,
    built model_lpf args_faces = Some self /\
    0 < def_face_ct self /\
    forallb no_newline (take (Z.to_nat (def_face_ct self))
                             ["RECHARGE"; "WELLS"]) = true /\
    exists content,
      read_file (fn_path self) (snd (write_file model_lpf self empty_fs))
      = Some content /\
      split_lines content
      = (split_lines (prefix_text self) ++
         ["RECHARGE            "; " 6"; "WELLS               "; " 1"] ++
         split_lines (tail_text model_lpf self))%list.
Proof.
  eexists. split; [reflexivity |]. split; [reflexivity |].
  split; [reflexivity |].
  match goal with
  | |- context [write_file model_lpf ?s empty_fs] =>
      destruct (face_entries_two_lines_each model_lpf s empty_fs
                  ["RECHARGE"; "WELLS"] [6; 1])
        as (content & R & L & _);
        [reflexivity | reflexivity | reflexivity | simpl; lia | simpl; lia
        | reflexivity |]
  end.
  exists content. split; [exact R | exact L].
Defined.

Lemma format_d_inj_witness :
  Fmt.format_d 1 123 = Fmt.format_d 2 123 /\ 123 = 123.
Proof.
  split; [reflexivity |].
  apply (format_d_inj 1 2 123 123). reflexivity.
Defined.

Lemma write_file_succeeds_only_if_witness :
  exists self,
    built model_lpf args_faces = Some self /\
    is_ok (fst (write_file model_lpf self empty_fs)) = true /\
    (Z.to_nat (def_face_ct self) <= bud_label_len (bud_label self))%nat /\
    (Z.to_nat (def_face_ct self) <= def_iface_len (def_iface self))%nat /\
    exists v, flow_layer_array (mf model_lpf) v /\ length v = 3%nat.
Proof.
  eexists. split; [reflexivity |]. split; [reflexivity |].
  match goal with
  | |- context [def_face_ct ?s] =>
      exact (write_file_succeeds_only_if model_lpf s empty_fs eq_refl)
  end.
Defined.
